(** * cryptoSQLite: the key/page engine (Crypto.cpp) and the VFS forwarders (VFS.h)

    A shallow embedding of [src/crypto/Crypto.cpp] and of the forwarding
    entries of [src/vfs/VFS.h].  C++ member functions become computations in
    a small state-and-exception monad: the state is threaded explicitly, an
    exception carries the state at the throw (C++ does not roll anything
    back), and reading outside a caller's memory block has no defined
    outcome. *)

From Stdlib Require Import ZArith NArith Lia List.
From Stdlib Require Import Strings.Byte.
From stdpp Require Import base gmap strings list.

Local Open Scope N_scope.

(** ** Machine integers and bytes *)

(** Conversion of an [int] to [uint32_t] (the implicit conversion at the
    call [Buffer::write(data, keylen, 0)]). *)
Definition to_uint32 (z : Z) : N := Z.to_N (z mod 2 ^ 32).

(** Assignment of a size to a [uint32_t] variable. *)
Definition u32 (n : N) : N := n mod 2 ^ 32.

Definition byte_of_N (n : N) : byte :=
  match Byte.of_N (n mod 256) with
  | Some b => b
  | None => x00
  end.

(** The four bytes [fwrite(&v, sizeof(uint32_t), 1, file)] emits for a
    [uint32_t v], least significant first (the layout of the hosts the
    library is built for). *)
Definition le32 (v : N) : list byte :=
  [byte_of_N v; byte_of_N (v / 2 ^ 8); byte_of_N (v / 2 ^ 16); byte_of_N (v / 2 ^ 24)].

(** What [fread(&v, sizeof(uint32_t), 1, file)] stores in [v]. *)
Definition le32_value (b0 b1 b2 b3 : byte) : N :=
  Byte.to_N b0 + 2 ^ 8 * Byte.to_N b1 + 2 ^ 16 * Byte.to_N b2 + 2 ^ 24 * Byte.to_N b3.

(** ** Outcomes and the monad *)

Inductive exn : Type :=
| runtime_error (what : string)   (* std::runtime_error thrown by the engine *)
| cipher_error (what : string).   (* whatever the cipher capability throws *)

Inductive outcome (S A : Type) : Type :=
| Done (a : A) (s : S)        (* normal return *)
| Raised (e : exn) (s : S)    (* an exception leaves the call, state as at the throw *)
| Undefined.                  (* a read outside the block a pointer designates *)
Arguments Done {S A} a s.
Arguments Raised {S A} e s.
Arguments Undefined {S A}.

Definition M (S A : Type) : Type := S → outcome S A.

Definition ret {S A} (a : A) : M S A := λ s, Done a s.

Definition bind {S A B} (m : M S A) (k : A → M S B) : M S B :=
  λ s, match m s with
       | Done a s' => k a s'
       | Raised e s' => Raised e s'
       | Undefined => Undefined
       end.

Definition throw {S A} (e : exn) : M S A := λ s, Raised e s.
Definition undefined {S A} : M S A := λ _, Undefined.
Definition gets {S A} (f : S → A) : M S A := λ s, Done (f s) s.
Definition modify {S} (f : S → S) : M S unit := λ s, Done tt (f s).

(** Run a computation on a part [T] of the state [S]. *)
Definition zoom {S T A} (get : S → T) (set : T → S → S) (m : M T A) : M S A :=
  λ s, match m (get s) with
       | Done a t => Done a (set t s)
       | Raised e t => Raised e (set t s)
       | Undefined => Undefined
       end.

#[global] Instance M_ret {S} : MRet (M S) := λ A, ret.
#[global] Instance M_bind {S} : MBind (M S) := λ A B k m, bind m k.

(** ** Buffer *)

Module Buffer.

(** Modelled from the spec: the [Buffer] class of the SecureMemory library
    is linked as a binary and has no source here.  A buffer is its used
    bytes; [size()] is a [uint32_t].  The spec (4.3) says of
    [resizePageBuffers]: "clears and reallocates both buffers to exactly
    size bytes, zero-padded", which fixes [clear] and [padd]; [write] at
    offset 0 overwrites from the front and grows the buffer when the data
    is longer, bytes past the written range stay. *)
Definition t : Type := list byte.

Definition size (b : t) : N := N.of_nat (length b).

(** [b.clear()] *)
Definition clear (b : t) : t := [].

(** [b.write(data, len, 0)], [data] being the [len] bytes read. *)
Definition write (data : list byte) (b : t) : t := data ++ drop (length data) b.

(** [b.padd(newSize, value)] *)
Definition padd (newSize : N) (value : byte) (b : t) : t :=
  b ++ replicate (N.to_nat newSize - length b) value.

End Buffer.

(** The [len] bytes a pointer designates, when the block [p] it points into
    has that many. *)
Definition peek (p : list byte) (len : N) : option (list byte) :=
  if decide (len ≤ N.of_nat (length p)) then Some (take (N.to_nat len) p) else None.

Definition peek_or_undefined {S} (p : list byte) (len : N) : M S (list byte) :=
  match peek p len with
  | Some data => ret data
  | None => undefined
  end.

(** ** The cipher capability *)

Module IDataCrypt.

(** Modelled from the spec: the interface behind [mDataCrypt] is declared in
    [cryptosqlite.h], which is not among the sources.  The spec (6) lists
    [generateKey(out)], [wrapKey(out, key, wrappingKey)],
    [unwrapKey(out, wrappedKey, wrappingKey)],
    [encrypt(pageNumber, in, out, key)], [decrypt(pageNumber, in, out, key)]
    and [extraSize()].  Every operation works on its [out] buffer and on the
    cipher's own hidden state [Rng] (its random generator), reads its other
    arguments, and may throw. *)
Record t (Rng : Type) : Type := {
  generateKey : M (Buffer.t * Rng) unit;
  wrapKey : Buffer.t → Buffer.t → M (Buffer.t * Rng) unit;
  unwrapKey : Buffer.t → Buffer.t → M (Buffer.t * Rng) unit;
  encrypt : Z → Buffer.t → Buffer.t → M (Buffer.t * Rng) unit;
  decrypt : Z → Buffer.t → Buffer.t → M (Buffer.t * Rng) unit;
  extraSize : N
}.
Arguments generateKey {Rng}.
Arguments wrapKey {Rng}.
Arguments unwrapKey {Rng}.
Arguments encrypt {Rng}.
Arguments decrypt {Rng}.
Arguments extraSize {Rng}.

End IDataCrypt.

(** ** The world the engine runs in *)

Module Crypto.

(** The data members of [class Crypto] that Crypto.cpp uses ([mDataCrypt]
    is the section variable below). *)
Record t : Type := {
  mFileName : string;
  mKey : Buffer.t;
  mWrappedKey : Buffer.t;
  mFirstPage : Buffer.t;
  mPageBufferIn : Buffer.t;
  mPageBufferOut : Buffer.t
}.

Definition set_mKey (f : Buffer.t → Buffer.t) (c : t) : t :=
  {| mFileName := mFileName c; mKey := f (mKey c); mWrappedKey := mWrappedKey c;
     mFirstPage := mFirstPage c; mPageBufferIn := mPageBufferIn c;
     mPageBufferOut := mPageBufferOut c |}.
Definition set_mWrappedKey (f : Buffer.t → Buffer.t) (c : t) : t :=
  {| mFileName := mFileName c; mKey := mKey c; mWrappedKey := f (mWrappedKey c);
     mFirstPage := mFirstPage c; mPageBufferIn := mPageBufferIn c;
     mPageBufferOut := mPageBufferOut c |}.
Definition set_mFirstPage (f : Buffer.t → Buffer.t) (c : t) : t :=
  {| mFileName := mFileName c; mKey := mKey c; mWrappedKey := mWrappedKey c;
     mFirstPage := f (mFirstPage c); mPageBufferIn := mPageBufferIn c;
     mPageBufferOut := mPageBufferOut c |}.
Definition set_mPageBufferIn (f : Buffer.t → Buffer.t) (c : t) : t :=
  {| mFileName := mFileName c; mKey := mKey c; mWrappedKey := mWrappedKey c;
     mFirstPage := mFirstPage c; mPageBufferIn := f (mPageBufferIn c);
     mPageBufferOut := mPageBufferOut c |}.
Definition set_mPageBufferOut (f : Buffer.t → Buffer.t) (c : t) : t :=
  {| mFileName := mFileName c; mKey := mKey c; mWrappedKey := mWrappedKey c;
     mFirstPage := mFirstPage c; mPageBufferIn := mPageBufferIn c;
     mPageBufferOut := f (mPageBufferOut c) |}.

(** What a call can see and change: the object itself, the files on disk
    (with the paths [fopen(_, "wb")] fails on), the cipher's hidden state
    and the caller's memory blocks by address. *)
Record World (Rng : Type) : Type := {
  this : t;
  files : gmap string (list byte);
  unwritable : gset string;
  rng : Rng;
  mem : gmap N (list byte)
}.
Arguments this {Rng}.
Arguments files {Rng}.
Arguments unwritable {Rng}.
Arguments rng {Rng}.
Arguments mem {Rng}.

Section Engine.
Context {Rng : Type}.

Definition on_this (f : t → t) (w : World Rng) : World Rng :=
  {| this := f (this w); files := files w; unwritable := unwritable w;
     rng := rng w; mem := mem w |}.
Definition on_files (f : gmap string (list byte) → gmap string (list byte))
    (w : World Rng) : World Rng :=
  {| this := this w; files := f (files w); unwritable := unwritable w;
     rng := rng w; mem := mem w |}.
Definition on_mem (f : gmap N (list byte) → gmap N (list byte))
    (w : World Rng) : World Rng :=
  {| this := this w; files := files w; unwritable := unwritable w;
     rng := rng w; mem := f (mem w) |}.
Definition set_rng (r : Rng) (w : World Rng) : World Rng :=
  {| this := this w; files := files w; unwritable := unwritable w;
     rng := r; mem := mem w |}.

(** A cipher operation whose [out] argument is the member read by [get]
    and written by [set]. *)
Definition with_out (get : t → Buffer.t)
    (set : (Buffer.t → Buffer.t) → t → t)
    (op : M (Buffer.t * Rng) unit) : M (World Rng) unit :=
  zoom (λ w, (get (this w), rng w))
       (λ br w, set_rng br.2 (on_this (set (λ _, br.1)) w)) op.

(** *** stdio *)

(** [fopen(path, "wb")]: whether the stream is non-null; the file is
    created or truncated. *)
Definition fopen_wb (path : string) : M (World Rng) bool :=
  λ w, if decide (path ∈ unwritable w) then Done false w
       else Done true (on_files <[path := []]> w).

(** [fwrite(data, 1, len, file)] on the stream opened on [path]; the
    source does not look at the count returned. *)
Definition fwrite (path : string) (data : list byte) : M (World Rng) unit :=
  modify (on_files (alter (λ old, old ++ data) path)).

(** [fopen(path, "rb")]: the unread bytes of the stream, or null. *)
Definition fopen_rb (path : string) : M (World Rng) (option (list byte)) :=
  gets (λ w, files w !! path).

(** [fread(ptr, size, count, file)]: the number of whole items read, the
    bytes stored through [ptr], and the unread rest of the stream. *)
Definition fread (size count : N) (stream : list byte)
    : N * list byte * list byte :=
  let items :=
    N.min count (if size =? 0 then 0 else N.of_nat (length stream) / size) in
  (items, take (N.to_nat (items * size)) stream,
   drop (N.to_nat (items * size)) stream).

(** The [uint32_t] whose four bytes [fread] stored. *)
Definition uint32_at (data : list byte) : N :=
  match data with
  | [b0; b1; b2; b3] => le32_value b0 b1 b2 b3
  | _ => 0
  end.

(** [try { body } catch (const std::exception& e) { std::cerr << ...; throw; }]:
    the handler prints and rethrows what it caught. *)
Definition try_catch {A} (body : M (World Rng) A)
    (handler : exn → M (World Rng) A) : M (World Rng) A :=
  λ w, match body w with
       | Raised e w' => handler e w'
       | o => o
       end.

Variable mDataCrypt : IDataCrypt.t Rng.

(** *** Crypto::wrapKey *)
Definition wrapKey (fileKey : list byte) (keylen : Z) : M (World Rng) unit :=
  data ← peek_or_undefined fileKey (to_uint32 keylen);
  let wrappingKey := Buffer.write data [] in
  modify (on_this (set_mWrappedKey Buffer.clear));;
  key ← gets (λ w, mKey (this w));
  with_out mWrappedKey set_mWrappedKey
    (IDataCrypt.wrapKey mDataCrypt key wrappingKey).

(** *** Crypto::unwrapKey *)
Definition unwrapKey (fileKey : list byte) (keylen : Z) : M (World Rng) unit :=
  data ← peek_or_undefined fileKey (to_uint32 keylen);
  let wrappingKey := Buffer.write data [] in
  modify (on_this (set_mKey Buffer.clear));;
  wrapped ← gets (λ w, mWrappedKey (this w));
  with_out mKey set_mKey
    (IDataCrypt.unwrapKey mDataCrypt wrapped wrappingKey).

(** *** Crypto::writeKeyFile *)
Definition writeKeyFile : M (World Rng) unit :=
  try_catch
    (path ← gets (λ w, mFileName (this w));
     file ← fopen_wb path;
     if negb file then throw (runtime_error "Failed to open keyfile") else
     (* wrapped key *)
     wrapped ← gets (λ w, mWrappedKey (this w));
     let keySize := u32 (Buffer.size wrapped) in
     let tempBuf := take (N.to_nat keySize) wrapped in
     fwrite path (le32 keySize);;
     fwrite path tempBuf;;
     (* first page *)
     firstPage ← gets (λ w, mFirstPage (this w));
     let pageSize := u32 (Buffer.size firstPage) in
     (if 0 <? pageSize then
        let tempBuf := take (N.to_nat pageSize) firstPage in
        fwrite path (le32 pageSize);;
        fwrite path tempBuf
      else mret tt))
    (λ e, throw e).

(** *** Crypto::readKeyFile *)
Definition readKeyFile : M (World Rng) unit :=
  try_catch
    (path ← gets (λ w, mFileName (this w));
     file ← fopen_rb path;
     match file with
     | None => throw (runtime_error "Failed to open keyfile")
     | Some stream =>
       (* wrapped key *)
       let '(items, data, stream) := fread 4 1 stream in
       if negb (items =? 1) then throw (runtime_error "Failed to read key size") else
       let keySize := uint32_at data in
       let '(items, tempBuf, stream) := fread 1 keySize stream in
       if negb (items =? keySize) then throw (runtime_error "Failed to read key data") else
       modify (on_this (set_mWrappedKey Buffer.clear));;
       modify (on_this (set_mWrappedKey (Buffer.write tempBuf)));;
       (* first page *)
       let '(items, data, stream) := fread 4 1 stream in
       if negb (items =? 1) then throw (runtime_error "Failed to read page size") else
       let pageSize := uint32_at data in
       if 0 <? pageSize then
         let '(items, tempBuf, stream) := fread 1 pageSize stream in
         if negb (items =? pageSize) then throw (runtime_error "Failed to read page data") else
         modify (on_this (set_mFirstPage Buffer.clear));;
         modify (on_this (set_mFirstPage (Buffer.write tempBuf)))
       else mret tt
     end)
    (λ e, throw e).

(** *** Crypto::Crypto *)
Definition Crypto (dbFileName : string) (fileKey : list byte) (keylen : Z)
    (exists_ : Z) : M (World Rng) unit :=
  (* member initialisers: the name, and default-constructed buffers *)
  modify (on_this (λ _,
    {| mFileName := dbFileName +:+ "-keyfile"; mKey := []; mWrappedKey := [];
       mFirstPage := []; mPageBufferIn := []; mPageBufferOut := [] |}));;
  if (exists_ =? 0)%Z then
    with_out mKey set_mKey (IDataCrypt.generateKey mDataCrypt);;
    wrapKey fileKey keylen
  else
    readKeyFile;;
    unwrapKey fileKey keylen.

(** *** Crypto::rekey *)
Definition rekey (newFileKey : list byte) (keylen : Z) : M (World Rng) unit :=
  wrapKey newFileKey keylen;;
  writeKeyFile.

(** *** Crypto::encryptPage
    [page] is the block the [const void *] points into; the value
    returned is what the pointer handed back designates at return, the
    bytes of the output buffer. *)
Definition encryptPage (page : list byte) (pageSize : N) (pageNo : Z)
    : M (World Rng) Buffer.t :=
  data ← peek_or_undefined page pageSize;
  modify (on_this (set_mPageBufferIn (Buffer.write data)));;
  src ← gets (λ w, mPageBufferIn (this w));
  key ← gets (λ w, mKey (this w));
  with_out mPageBufferOut set_mPageBufferOut
    (IDataCrypt.encrypt mDataCrypt pageNo src key);;
  (if (pageNo =? 1)%Z then
     modify (on_this (set_mFirstPage Buffer.clear));;
     out ← gets (λ w, mPageBufferOut (this w));
     modify (on_this (set_mFirstPage (Buffer.write out)));;
     writeKeyFile
   else mret tt);;
  gets (λ w, mPageBufferOut (this w)).

(** The [pageSize] bytes at address [a] of the caller's memory. *)
Definition load (a : N) (len : N) : M (World Rng) (list byte) :=
  λ w, match mem w !! a with
       | Some block => peek_or_undefined block len w
       | None => Undefined
       end.

(** [memcpy(a, src, len)] with [data] the bytes copied. *)
Definition store (a : N) (data : list byte) : M (World Rng) unit :=
  modify (on_mem (alter (Buffer.write data) a)).

(** *** Crypto::decryptPage
    [pageInOut] is [None] for a null pointer, else the address of the
    caller's block. *)
Definition decryptPage (pageInOut : option N) (pageSize : N) (pageNo : Z)
    : M (World Rng) unit :=
  match pageInOut with
  | Some a =>
    data ← load a pageSize;
    modify (on_this (set_mPageBufferIn (Buffer.write data)))
  | None => mret tt
  end;;
  src ← gets (λ w, mPageBufferIn (this w));
  key ← gets (λ w, mKey (this w));
  with_out mPageBufferOut set_mPageBufferOut
    (IDataCrypt.decrypt mDataCrypt pageNo src key);;
  match pageInOut with
  | Some a =>
    out ← gets (λ w, mPageBufferOut (this w));
    plain ← peek_or_undefined out pageSize;
    store a plain
  | None => mret tt
  end.

(** *** Crypto::resizePageBuffers *)
Definition resizePageBuffers (size : N) : M (World Rng) unit :=
  modify (on_this (set_mPageBufferIn Buffer.clear));;
  modify (on_this (set_mPageBufferIn (Buffer.padd size x00)));;
  modify (on_this (set_mPageBufferOut Buffer.clear));;
  modify (on_this (set_mPageBufferOut (Buffer.padd size x00))).

(** *** Crypto::decryptFirstPageCache *)
Definition decryptFirstPageCache : M (World Rng) unit :=
  firstPage ← gets (λ w, mFirstPage (this w));
  resizePageBuffers (N.max (Buffer.size firstPage) 512);;
  firstPage ← gets (λ w, mFirstPage (this w));
  if 0 <? Buffer.size firstPage then
    key ← gets (λ w, mKey (this w));
    with_out mPageBufferOut set_mPageBufferOut
      (IDataCrypt.decrypt mDataCrypt 1 firstPage key)
  else mret tt.

(** *** Crypto::extraSize *)
Definition extraSize : N := IDataCrypt.extraSize mDataCrypt.

End Engine.

End Crypto.

(** ** The keyfile *)

Module Keyfile.

(** The bytes the stream of [Crypto::writeKeyFile] receives, in order, for
    given contents of [mWrappedKey] and [mFirstPage]. *)
Definition written (wrapped firstPage : Buffer.t) : list byte :=
  let keySize := u32 (Buffer.size wrapped) in
  let pageSize := u32 (Buffer.size firstPage) in
  le32 keySize ++ take (N.to_nat keySize) wrapped ++
  (if 0 <? pageSize then le32 pageSize ++ take (N.to_nat pageSize) firstPage
   else []).

(** The layout in the words of the spec (6):
    [uint32 wrappedKeySize | byte[wrappedKeySize] | uint32 firstPageSize |
    byte[firstPageSize]], the last field of length 0 when no page 1 has
    been written. *)
Definition layout (wrapped firstPage : list byte) : list byte :=
  le32 (Buffer.size wrapped) ++ wrapped ++
  le32 (Buffer.size firstPage) ++ firstPage.

End Keyfile.

(** ** The VFS shim's forwarding entries (VFS.h) *)

Module VFS.

(** Every C pointer ([const char *], [int *], [double *], [void *],
    [sqlite3_syscall_ptr], a function pointer) is an address. *)
Definition ptr : Type := N.

Section Shim.
(** Everything the underlying VFS acts on: the operating system, and the
    memory its out-parameters point into. *)
Context {OS : Type}.

(** Modelled from the spec: [struct sqlite3_vfs] is declared in sqlite3.h,
    which is not among the sources; these are the entries of the "full VFS
    method table" of the spec (6) other than [open], with the argument
    and result types the forwarders of VFS.h give them.  The first
    argument is the [sqlite3_vfs *] the entry is invoked on. *)
Record sqlite3_vfs : Type := {
  xDelete : ptr → ptr → Z → M OS Z;
  xAccess : ptr → ptr → Z → ptr → M OS Z;
  xFullPathname : ptr → ptr → Z → ptr → M OS Z;
  xDlOpen : ptr → ptr → M OS ptr;
  xDlError : ptr → Z → ptr → M OS unit;
  xDlSym : ptr → ptr → ptr → M OS ptr;
  xDlClose : ptr → ptr → M OS unit;
  xRandomness : ptr → Z → ptr → M OS Z;
  xSleep : ptr → Z → M OS Z;
  xCurrentTime : ptr → ptr → M OS Z;
  xGetLastError : ptr → Z → ptr → M OS Z;
  xCurrentTimeInt64 : ptr → ptr → M OS Z;
  xSetSystemCall : ptr → ptr → ptr → M OS Z;
  xGetSystemCall : ptr → ptr → M OS ptr;
  xNextSystemCall : ptr → ptr → M OS ptr
}.

(** [class VFS]: [mBase] is its first member, so a [sqlite3_vfs *] to it
    is a pointer to the object (the [static_assert] of VFS.h); the mutex
    and the registry of open databases play no part in the forwarders. *)
Record t : Type := {
  mBase : sqlite3_vfs;
  mUnderlying : ptr;
  mFileKey : ptr;
  mFileKeySize : Z
}.

(** VFS::underlying *)
Definition underlying (v : t) : ptr := mUnderlying v.

(** What lives at an address: a shim object, or a plain method table. *)
Inductive object : Type :=
| Shim (v : t)
| Table (tbl : sqlite3_vfs).

Definition heap : Type := gmap ptr object.

(** [reinterpret_cast<VFS *>(x)] followed by a member access is defined
    when [x] is the address of a [VFS]. *)
Definition as_VFS (h : heap) (x : ptr) : option t :=
  match h !! x with
  | Some (Shim v) => Some v
  | _ => None
  end.

(** The method table a [sqlite3_vfs *] designates. *)
Definition as_sqlite3_vfs (h : heap) (x : ptr) : option sqlite3_vfs :=
  match h !! x with
  | Some (Shim v) => Some (mBase v)
  | Some (Table tbl) => Some tbl
  | None => None
  end.

(** [#define VFS_REAL(x) reinterpret_cast<VFS *>(x)->underlying()] *)
Definition VFS_REAL (h : heap) (x : ptr) : option ptr :=
  underlying <$> as_VFS h x.

(** [VFS_REAL(pVfs)->entry(VFS_REAL(pVfs), ...)]: the entry of the table
    at [VFS_REAL(pVfs)], invoked on [VFS_REAL(pVfs)]. *)
Definition call_real {A} (h : heap) (pVfs : ptr)
    (entry : sqlite3_vfs → ptr → M OS A) : M OS A :=
  match VFS_REAL h pVfs with
  | Some real =>
    match as_sqlite3_vfs h real with
    | Some tbl => entry tbl real
    | None => undefined
    end
  | None => undefined
  end.

Variable h : heap.

Definition sVfsDelete (pVfs zName : ptr) (syncDir : Z) : M OS Z :=
  call_real h pVfs (λ tbl real, xDelete tbl real zName syncDir).
Definition sVfsAccess (pVfs zName : ptr) (flags : Z) (pResOut : ptr) : M OS Z :=
  call_real h pVfs (λ tbl real, xAccess tbl real zName flags pResOut).
Definition sVfsFullPathname (pVfs zName : ptr) (nOut : Z) (zOut : ptr) : M OS Z :=
  call_real h pVfs (λ tbl real, xFullPathname tbl real zName nOut zOut).
Definition sVfsDlOpen (pVfs zFilename : ptr) : M OS ptr :=
  call_real h pVfs (λ tbl real, xDlOpen tbl real zFilename).
Definition sVfsDlError (pVfs : ptr) (nByte : Z) (zErrMsg : ptr) : M OS unit :=
  call_real h pVfs (λ tbl real, xDlError tbl real nByte zErrMsg).
Definition sVfsDlSym (pVfs p zSymbol : ptr) : M OS ptr :=
  call_real h pVfs (λ tbl real, xDlSym tbl real p zSymbol).
Definition sVfsDlClose (pVfs p : ptr) : M OS unit :=
  call_real h pVfs (λ tbl real, xDlClose tbl real p).
Definition sVfsRandomness (pVfs : ptr) (nByte : Z) (zOut : ptr) : M OS Z :=
  call_real h pVfs (λ tbl real, xRandomness tbl real nByte zOut).
Definition sVfsSleep (pVfs : ptr) (microseconds : Z) : M OS Z :=
  call_real h pVfs (λ tbl real, xSleep tbl real microseconds).
Definition sVfsCurrentTime (pVfs pOut : ptr) : M OS Z :=
  call_real h pVfs (λ tbl real, xCurrentTime tbl real pOut).
Definition sVfsGetLastError (pVfs : ptr) (nErr : Z) (zOut : ptr) : M OS Z :=
  call_real h pVfs (λ tbl real, xGetLastError tbl real nErr zOut).
Definition sVfsCurrentTimeInt64 (pVfs pOut : ptr) : M OS Z :=
  call_real h pVfs (λ tbl real, xCurrentTimeInt64 tbl real pOut).
Definition sVfsSetSystemCall (pVfs zName pNewFunc : ptr) : M OS Z :=
  call_real h pVfs (λ tbl real, xSetSystemCall tbl real zName pNewFunc).
Definition sVfsGetSystemCall (pVfs zName : ptr) : M OS ptr :=
  call_real h pVfs (λ tbl real, xGetSystemCall tbl real zName).
Definition sVfsNextSystemCall (pVfs zName : ptr) : M OS ptr :=
  call_real h pVfs (λ tbl real, xNextSystemCall tbl real zName).

End Shim.
Arguments sqlite3_vfs : clear implicits.
Arguments t : clear implicits.
Arguments object : clear implicits.
Arguments heap : clear implicits.

End VFS.

(** ** A small cipher to run the engine on *)

Module ToyCrypt.

(** The wrapping key is spelled out in front of the data key, each of its
    bytes after a [x01] marker and the whole closed by [x00], so that
    unwrapping can compare it. *)
Fixpoint wrap (key wrappingKey : list byte) : list byte :=
  match wrappingKey with
  | [] => x00 :: key
  | b :: rest => x01 :: b :: wrap key rest
  end.

Fixpoint unwrap (wrapped wrappingKey : list byte) : option (list byte) :=
  match wrappingKey, wrapped with
  | [], x00 :: key => Some key
  | b :: rest, x01 :: b' :: wrapped' =>
    if Byte.eqb b b' then unwrap wrapped' rest else None
  | _, _ => None
  end.

Definition mask (key : list byte) : N :=
  match key with
  | k :: _ => Byte.to_N k
  | [] => 0
  end.

Definition xor_byte (m : N) (b : byte) : byte := byte_of_N (N.lxor m (Byte.to_N b)).

(** One tag byte, the page number, then the masked page. *)
Definition tag (pageNo : Z) : byte := byte_of_N (to_uint32 pageNo).

Definition seal (pageNo : Z) (src key : list byte) : list byte :=
  tag pageNo :: map (xor_byte (mask key)) src.

Definition unseal (pageNo : Z) (src key : list byte) : option (list byte) :=
  match src with
  | t :: body =>
    if Byte.eqb t (tag pageNo) then Some (map (xor_byte (mask key)) body) else None
  | [] => None
  end.

Definition fill {Rng} (o : option (list byte)) (what : string)
    : M (list byte * Rng) unit :=
  match o with
  | Some out => modify (λ s, (out, s.2))
  | None => throw (cipher_error what)
  end.

Definition cipher : IDataCrypt.t N :=
  {| IDataCrypt.generateKey := modify (λ s, ([byte_of_N s.2; byte_of_N (s.2 + 1)], s.2 + 2));
     IDataCrypt.wrapKey key wrappingKey := fill (Some (wrap key wrappingKey)) "wrap";
     IDataCrypt.unwrapKey wrapped wrappingKey := fill (unwrap wrapped wrappingKey) "unwrap";
     IDataCrypt.encrypt pageNo src key := fill (Some (seal pageNo src key)) "encrypt";
     IDataCrypt.decrypt pageNo src key := fill (unseal pageNo src key) "decrypt";
     IDataCrypt.extraSize := 1 |}.

End ToyCrypt.

(** ** Sample states *)

Module Sample.
Import Crypto.

(** An engine that has its keys but has never written a page. *)
Definition engine : Crypto.t :=
  {| mFileName := "db-keyfile"; mKey := [x07; x08];
     mWrappedKey := ToyCrypt.wrap [x07; x08] [x73; x65; x63];
     mFirstPage := []; mPageBufferIn := []; mPageBufferOut := [] |}.

(** A world with nothing on disk and one caller block, at address 16. *)
Definition world : World N :=
  {| this := engine; files := ∅; unwritable := ∅; rng := 7;
     mem := {[ 16 := [x09; x48; x49] ]} |}.

(** The same engine holding another data key, and a used input buffer. *)
Definition world_other_key : World N :=
  on_this (λ c, set_mPageBufferIn (λ _, [x21]) (set_mKey (λ _, [xff; xfe]) c))
          world.

(** An external key, a new one to rotate to with a byte after it that the
    length leaves out, and the wrap of the data key under the new one. *)
Definition secret : list byte := [x73; x65; x63].
Definition new_secret : list byte := [x6e; x65; x77].
Definition new_secret_block : list byte := new_secret ++ [x21].
Definition rewrapped : list byte := ToyCrypt.wrap [x07; x08] new_secret.

(** The world after [writeKeyFile]: the keyfile holds the key section
    alone. *)
Definition world_key_only : World N :=
  on_files <["db-keyfile" := le32 9 ++ mWrappedKey engine]> world.

(** The world after a refused [decryptPage] of the block at address 16. *)
Definition world_refused : World N :=
  on_this (set_mPageBufferIn (λ _, [x09; x48; x49])) world.

(** The same with a page-1 image cached. *)
Definition world_with_page : World N :=
  on_this (set_mFirstPage (λ _, [x01; x4f; x4e])) world.

(** A method table that records each call in a log of numbers. *)
Definition logging_vfs : VFS.sqlite3_vfs (list Z) :=
  {| VFS.xDelete self zName syncDir := λ os, Done 0%Z (1 :: syncDir :: os)%Z;
     VFS.xAccess self zName flags pResOut := λ os, Done 0%Z (2 :: flags :: os)%Z;
     VFS.xFullPathname self zName nOut zOut := λ os, Done 0%Z (3 :: nOut :: os)%Z;
     VFS.xDlOpen self zFilename := λ os, Done zFilename (4 :: os)%Z;
     VFS.xDlError self nByte zErrMsg := λ os, Done tt (5 :: nByte :: os)%Z;
     VFS.xDlSym self p zSymbol := λ os, Done (p + zSymbol) (6 :: os)%Z;
     VFS.xDlClose self p := λ os, Done tt (7 :: os)%Z;
     VFS.xRandomness self nByte zOut := λ os, Done nByte (8 :: os)%Z;
     VFS.xSleep self microseconds := λ os, Done microseconds (9 :: os)%Z;
     VFS.xCurrentTime self pOut := λ os, Done 0%Z (10 :: os)%Z;
     VFS.xGetLastError self nErr zOut := λ os, Done nErr (11 :: os)%Z;
     VFS.xCurrentTimeInt64 self pOut := λ os, Done 0%Z (12 :: os)%Z;
     VFS.xSetSystemCall self zName pNewFunc := λ os, Done 12%Z (13 :: os)%Z;
     VFS.xGetSystemCall self zName := λ os, Done (self + zName) (14 :: os)%Z;
     VFS.xNextSystemCall self zName := λ os, Done (zName + 1) (15 :: os)%Z |}.

(** A table whose every entry is undefined, for the shim's own [mBase]:
    the forwarders never consult it. *)
Definition unreachable_vfs : VFS.sqlite3_vfs (list Z) :=
  {| VFS.xDelete _ _ _ := undefined; VFS.xAccess _ _ _ _ := undefined;
     VFS.xFullPathname _ _ _ _ := undefined; VFS.xDlOpen _ _ := undefined;
     VFS.xDlError _ _ _ := undefined; VFS.xDlSym _ _ _ := undefined;
     VFS.xDlClose _ _ := undefined; VFS.xRandomness _ _ _ := undefined;
     VFS.xSleep _ _ := undefined; VFS.xCurrentTime _ _ := undefined;
     VFS.xGetLastError _ _ _ := undefined; VFS.xCurrentTimeInt64 _ _ := undefined;
     VFS.xSetSystemCall _ _ _ := undefined; VFS.xGetSystemCall _ _ := undefined;
     VFS.xNextSystemCall _ _ := undefined |}.

(** The shim at address 100, over the logging table at address 200. *)
Definition shim : VFS.t (list Z) :=
  {| VFS.mBase := unreachable_vfs; VFS.mUnderlying := 200;
     VFS.mFileKey := 0; VFS.mFileKeySize := 0 |}.

Definition vfs_heap : VFS.heap (list Z) :=
  {[ 100 := VFS.Shim shim; 200 := VFS.Table logging_vfs ]}.

End Sample.

(** ** Vocabulary of the statements *)

(** [m] changes nothing [view] can see, however it ends. *)
Definition keeps {S X A} (view : S → X) (m : M S A) : Prop :=
  ∀ s, match m s with
       | Done _ s' | Raised _ s' => view s' = view s
       | Undefined => True
       end.

(** The raw data key of the engine. *)
Definition data_key {Rng} (w : Crypto.World Rng) : Buffer.t :=
  Crypto.mKey (Crypto.this w).

(** Everything of the world but the two page buffers and the cipher's
    hidden state. *)
Definition outside_page_buffers {Rng} (w : Crypto.World Rng) :=
  (Crypto.mFileName (Crypto.this w), Crypto.mKey (Crypto.this w),
   Crypto.mWrappedKey (Crypto.this w), Crypto.mFirstPage (Crypto.this w),
   Crypto.files w, Crypto.unwritable w, Crypto.mem w).

(** The contract of key wrapping, spec (8): "for all data keys K and external
    keys F: unwrap(wrap(K, F), F) == K", and "unwrapping with F' ≠ F fails
    with AuthenticationError; it never returns a plausible but wrong key".
    Both are stated for a cleared [out] buffer, which is how the engine
    calls them. *)
Record lawful_wrapping {Rng} (dc : IDataCrypt.t Rng) : Prop := {
  unwrap_wrap :
    ∀ key wrappingKey r wrapped r',
      IDataCrypt.wrapKey dc key wrappingKey ([], r) = Done tt (wrapped, r') →
      ∀ r2, ∃ r3,
        IDataCrypt.unwrapKey dc wrapped wrappingKey ([], r2) = Done tt (key, r3);
  unwrap_other_key :
    ∀ key wrappingKey r wrapped r' otherKey,
      IDataCrypt.wrapKey dc key wrappingKey ([], r) = Done tt (wrapped, r') →
      otherKey ≠ wrappingKey →
      ∀ r2, ∃ e s,
        IDataCrypt.unwrapKey dc wrapped otherKey ([], r2) = Raised e s
}.

(** ** Further views and sample states *)

(** What decryption has no business with: the keyfile's name, the two keys,
    the first-page cache and the disk. *)
Definition keys_cache_and_disk {Rng} (w : Crypto.World Rng) :=
  (Crypto.mFileName (Crypto.this w), Crypto.mKey (Crypto.this w),
   Crypto.mWrappedKey (Crypto.this w), Crypto.mFirstPage (Crypto.this w),
   Crypto.files w, Crypto.unwritable w).

(** Everything of the world but the output buffer and the cipher's hidden
    state. *)
Definition outside_output_buffer {Rng} (w : Crypto.World Rng) :=
  (Crypto.mFileName (Crypto.this w), Crypto.mKey (Crypto.this w),
   Crypto.mWrappedKey (Crypto.this w), Crypto.mFirstPage (Crypto.this w),
   Crypto.mPageBufferIn (Crypto.this w),
   Crypto.files w, Crypto.unwritable w, Crypto.mem w).

(** [m], when it ends with an exception, has changed nothing [view] can
    see. *)
Definition keeps_when_raised {S X A} (view : S → X) (m : M S A) : Prop :=
  ∀ s e s', m s = Raised e s' → view s' = view s.

Module Scenario.
Import Crypto.

(** The first-page ciphertext of the samples. *)
Definition page1 : list byte := [x01; x4f; x4e].

(** The sample world with the keyfile's path closed to writing. *)
Definition locked : World N :=
  {| this := Sample.engine; files := ∅; unwritable := {[ "db-keyfile" ]};
     rng := 7; mem := ∅ |}.

(** A world whose disk holds [content] as the keyfile, seen by an engine
    with stale members. *)
Definition with_keyfile (content : list byte) : World N :=
  {| this := {| mFileName := "db-keyfile"; mKey := [x07; x08];
                mWrappedKey := [xaa]; mFirstPage := [xbb; xcc];
                mPageBufferIn := []; mPageBufferOut := [] |};
     files := {[ "db-keyfile" := content ]}; unwritable := ∅; rng := 7;
     mem := ∅ |}.

(** The keyfile of the sample engine with [page1] cached. *)
Definition stored : World N :=
  with_keyfile (Keyfile.layout (mWrappedKey Sample.engine) page1).

(** An engine whose input buffer holds the plaintext of [page1] from an
    earlier call, and whose caller has the ciphertext at address 16. *)
Definition with_cipher_block : World N :=
  {| this := {| mFileName := "db-keyfile"; mKey := [x07; x08];
                mWrappedKey := mWrappedKey Sample.engine; mFirstPage := page1;
                mPageBufferIn := [x01; x4f; x4e; x00];
                mPageBufferOut := [] |};
     files := ∅; unwritable := ∅; rng := 7;
     mem := {[ 16 := [x05; x4f; x4e; x21]; 32 := [x2a] ]} |}.

End Scenario.

(** * Properties *)

(** ** Bytes and 32-bit sizes *)

Lemma to_N_byte_of_N (n : N) : Byte.to_N (byte_of_N n) = n mod 256.
Proof.
  unfold byte_of_N. destruct (Byte.of_N (n mod 256)) as [b|] eqn:E.
  - by apply Byte.to_of_N in E.
  - apply Byte.of_N_None_iff in E.
    pose proof (N.mod_upper_bound n 256). lia.
Qed.

Lemma uint32_at_le32 (v : N) : Crypto.uint32_at (le32 v) = u32 v.
Proof.
  unfold Crypto.uint32_at, le32, le32_value, u32.
  rewrite !to_N_byte_of_N.
  change (2 ^ 32) with (2 ^ 8 * (2 ^ 8 * (2 ^ 8 * 2 ^ 8))).
  rewrite !N.Div0.mod_mul_r, !N.Div0.div_div.
  change (2 ^ 8) with 256. change (2 ^ 16) with (256 * 256).
  change (2 ^ 24) with (256 * 256 * 256). lia.
Qed.

Lemma u32_small (n : N) : n < 2 ^ 32 → u32 n = n.
Proof. intros. unfold u32. by apply N.mod_small. Qed.

Lemma length_le32 (v : N) : length (le32 v) = 4%nat.
Proof. reflexivity. Qed.

(** ** Reading a stream *)

Lemma fread_uint32 (v : N) (rest : list byte) :
  Crypto.fread 4 1 (le32 v ++ rest) = (1, le32 v, rest).
Proof.
  unfold Crypto.fread. change (4 =? 0) with false. cbv iota.
  assert (N.min 1 (N.of_nat (length (le32 v ++ rest)) / 4) = 1) as ->.
  { apply N.min_l. apply N.div_le_lower_bound; [lia|].
    rewrite length_app, length_le32. lia. }
  reflexivity.
Qed.

Lemma fread_bytes (data rest : list byte) :
  Crypto.fread 1 (N.of_nat (length data)) (data ++ rest)
  = (N.of_nat (length data), data, rest).
Proof.
  unfold Crypto.fread. change (1 =? 0) with false. cbv iota.
  rewrite N.div_1_r, N.min_l by (rewrite length_app; lia).
  rewrite N.mul_1_r, Nat2N.id.
  by rewrite take_app_length, drop_app_length.
Qed.

Lemma fread_bytes_all (data : list byte) :
  Crypto.fread 1 (N.of_nat (length data)) data = (N.of_nat (length data), data, []).
Proof. rewrite <- (app_nil_r data) at 2. rewrite fread_bytes. done. Qed.

(** ** Buffers *)

Lemma write_nil (data : list byte) : Buffer.write data [] = data.
Proof. unfold Buffer.write. by rewrite drop_nil, app_nil_r. Qed.

Lemma padd_nil (n : N) (v : byte) : Buffer.padd n v [] = replicate (N.to_nat n) v.
Proof. unfold Buffer.padd. simpl. by rewrite Nat.sub_0_r. Qed.

(** ** Running the engine *)

Arguments Crypto.fread : simpl never.
Arguments le32 : simpl never.
Arguments u32 : simpl never.
Arguments Keyfile.written : simpl never.
Arguments Buffer.write : simpl never.
Arguments Buffer.padd : simpl never.

Ltac run :=
  unfold mbind, M_bind, bind, mret, M_ret, ret, gets, modify, throw, undefined;
  cbn beta iota.

Ltac fields :=
  unfold Crypto.on_this, Crypto.on_files, Crypto.on_mem, Crypto.set_rng,
    Crypto.set_mKey, Crypto.set_mWrappedKey, Crypto.set_mFirstPage,
    Crypto.set_mPageBufferIn, Crypto.set_mPageBufferOut, Buffer.clear,
    Buffer.t, data_key in *;
  cbn in *; rewrite ?write_nil, ?padd_nil in *.

Section Run.
Context {Rng : Type}.
Implicit Types w : Crypto.World Rng.

Lemma writeKeyFile_run w :
  Crypto.mFileName (Crypto.this w) ∉ Crypto.unwritable w →
  Crypto.writeKeyFile w =
    Done tt (Crypto.on_files
               <[Crypto.mFileName (Crypto.this w) :=
                   Keyfile.written (Crypto.mWrappedKey (Crypto.this w))
                                   (Crypto.mFirstPage (Crypto.this w))]> w).
Proof.
  intros Hw. unfold Crypto.writeKeyFile, Crypto.try_catch, Crypto.fopen_wb, Crypto.fwrite.
  run. rewrite decide_False by done. cbn.
  unfold Keyfile.written.
  destruct (0 <? u32 (Buffer.size (Crypto.mFirstPage (Crypto.this w)))); cbn;
    fields; rewrite !alter_insert_eq; cbn [app]; by rewrite <- ?app_assoc, ?app_nil_r.
Qed.

Lemma writeKeyFile_refused w :
  Crypto.mFileName (Crypto.this w) ∈ Crypto.unwritable w →
  Crypto.writeKeyFile w = Raised (runtime_error "Failed to open keyfile") w.
Proof.
  intros Hw. unfold Crypto.writeKeyFile, Crypto.try_catch, Crypto.fopen_wb.
  run. by rewrite decide_True.
Qed.

(** A keyfile holding both sections is read back into the two members. *)
Lemma readKeyFile_both w (wrapped firstPage : list byte) :
  Buffer.size wrapped < 2 ^ 32 →
  0 < Buffer.size firstPage →
  Buffer.size firstPage < 2 ^ 32 →
  Crypto.files w !! Crypto.mFileName (Crypto.this w)
    = Some (Keyfile.layout wrapped firstPage) →
  Crypto.readKeyFile w =
    Done tt (Crypto.on_this
               (λ c, Crypto.set_mFirstPage (λ _, firstPage)
                       (Crypto.set_mWrappedKey (λ _, wrapped) c)) w).
Proof.
  intros Hk Hp0 Hp Hf.
  unfold Crypto.readKeyFile, Crypto.try_catch, Crypto.fopen_rb. run.
  rewrite Hf. unfold Keyfile.layout, Buffer.size in *.
  rewrite fread_uint32, uint32_at_le32, u32_small, ?N.eqb_refl by done. cbn [negb].
  rewrite fread_bytes, !N.eqb_refl. cbn [negb].
  rewrite fread_uint32, uint32_at_le32, u32_small, ?N.eqb_refl by done. cbn [negb].
  rewrite (proj2 (N.ltb_lt _ _) Hp0).
  rewrite fread_bytes_all.
  rewrite !N.eqb_refl. cbn.
  by fields.
Qed.

(** A keyfile that ends after the wrapped key is refused, after
    [mWrappedKey] has been replaced. *)
Lemma readKeyFile_key_only w (wrapped : list byte) :
  Buffer.size wrapped < 2 ^ 32 →
  Crypto.files w !! Crypto.mFileName (Crypto.this w)
    = Some (le32 (Buffer.size wrapped) ++ wrapped) →
  Crypto.readKeyFile w =
    Raised (runtime_error "Failed to read page size")
           (Crypto.on_this (Crypto.set_mWrappedKey (λ _, wrapped)) w).
Proof.
  intros Hk Hf.
  unfold Crypto.readKeyFile, Crypto.try_catch, Crypto.fopen_rb. run.
  rewrite Hf. unfold Buffer.size in *.
  rewrite fread_uint32, uint32_at_le32, u32_small, ?N.eqb_refl by done. cbn [negb].
  rewrite fread_bytes_all.
  rewrite !N.eqb_refl. cbn.
  by fields.
Qed.

End Run.

(** ** Frame rules *)

Section Keeps.
Context {S X : Type} (view : S → X).

Lemma keeps_ret {A} (a : A) : keeps view (mret a : M S A).
Proof. by intros s. Qed.

Lemma keeps_throw {A} (e : exn) : keeps view (throw e : M S A).
Proof. by intros s. Qed.

Lemma keeps_undefined {A} : keeps view (undefined : M S A).
Proof. by intros s. Qed.

Lemma keeps_gets {A} (f : S → A) : keeps view (gets f).
Proof. by intros s. Qed.

Lemma keeps_modify (f : S → S) :
  (∀ s, view (f s) = view s) → keeps view (modify f).
Proof. intros Hf s. apply Hf. Qed.

Lemma keeps_bind {A B} (m : M S A) (k : A → M S B) :
  keeps view m → (∀ a, keeps view (k a)) → keeps view (m ≫= k).
Proof.
  intros Hm Hk s. specialize (Hm s). run.
  destruct (m s) as [a s'| |]; [|done..].
  specialize (Hk a s'). destruct (k a s'); congruence.
Qed.

Lemma keeps_peek {A} (p : list byte) (len : N) (k : list byte → M S A) :
  (∀ data, keeps view (k data)) → keeps view (peek_or_undefined p len ≫= k).
Proof.
  intros Hk. apply keeps_bind; [|done].
  unfold peek_or_undefined. destruct (peek p len); by intros s.
Qed.
End Keeps.

Section EngineKeeps.
Context {Rng X : Type} (view : Crypto.World Rng → X).

Lemma keeps_try_catch {A} (body : M (Crypto.World Rng) A) :
  keeps view body → keeps view (Crypto.try_catch body (λ e, throw e)).
Proof.
  intros Hb w. specialize (Hb w). unfold Crypto.try_catch.
  by destruct (body w).
Qed.

Lemma keeps_with_out get set (op : M (Buffer.t * Rng) unit) :
  (∀ b r w, view (Crypto.set_rng r (Crypto.on_this (set (λ _, b)) w)) = view w) →
  keeps view (Crypto.with_out get set op).
Proof.
  intros Hset w. unfold Crypto.with_out, zoom.
  destruct (op _) as [[] [b r]|e [b r]|]; [apply Hset..|done].
Qed.
End EngineKeeps.

(** Decompose a computation along its binds and branches, leaving the
    primitive steps that write. *)
Ltac frame_step :=
  cbv beta zeta;
  lazymatch goal with
  | H : keeps ?v ?m |- keeps ?v ?m => exact H
  | H : ∀ x, keeps ?v (?m x) |- keeps ?v (?m _) => apply H
  | |- keeps _ (if ?b then _ else _) => destruct b
  | |- keeps _ (match ?x with _ => _ end) => destruct x
  | |- keeps _ (mret _) => apply keeps_ret
  | |- keeps _ (throw _) => apply keeps_throw
  | |- keeps _ undefined => apply keeps_undefined
  | |- keeps _ (gets _) => apply keeps_gets
  | |- keeps _ (Crypto.try_catch _ _) => apply keeps_try_catch
  | |- keeps _ (peek_or_undefined _ _ ≫= _) => apply keeps_peek; intro
  | |- keeps _ (_ ≫= _) => apply keeps_bind; [|intro]
  | |- keeps _ (modify _) => apply keeps_modify; intros; by fields
  | |- keeps _ (Crypto.with_out _ _ _) => apply keeps_with_out; intros; by fields
  end.
Ltac frame := repeat frame_step.

Section Claims.
Context {Rng : Type} (dc : IDataCrypt.t Rng).
Implicit Types w : Crypto.World Rng.

Lemma fopen_wb_keeps {X} (view : Crypto.World Rng → X) path :
  (∀ f w, view (Crypto.on_files f w) = view w) →
  keeps view (Crypto.fopen_wb (Rng:=Rng) path).
Proof. intros Hv w. unfold Crypto.fopen_wb. case_decide; [done|apply Hv]. Qed.

Lemma writeKeyFile_keeps {X} (view : Crypto.World Rng → X) :
  (∀ f w, view (Crypto.on_files f w) = view w) →
  keeps view (Crypto.writeKeyFile (Rng:=Rng)).
Proof.
  intros Hv. unfold Crypto.writeKeyFile, Crypto.fwrite.
  frame; try (by apply fopen_wb_keeps); apply keeps_modify; intros; apply Hv.
Qed.

Lemma readKeyFile_keeps_mKey :
  keeps data_key (Crypto.readKeyFile (Rng:=Rng)).
Proof. unfold Crypto.readKeyFile, Crypto.fopen_rb. frame. Qed.

Lemma wrapKey_keeps_mKey fileKey keylen :
  keeps data_key (Crypto.wrapKey dc fileKey keylen).
Proof. unfold Crypto.wrapKey. frame. Qed.

Lemma resizePageBuffers_keeps {X} (view : Crypto.World Rng → X) size :
  (∀ f w, view (Crypto.on_this (Crypto.set_mPageBufferIn f) w) = view w) →
  (∀ f w, view (Crypto.on_this (Crypto.set_mPageBufferOut f) w) = view w) →
  keeps view (Crypto.resizePageBuffers (Rng:=Rng) size).
Proof.
  intros Hi Ho. unfold Crypto.resizePageBuffers.
  frame; apply keeps_modify; intros; (apply Hi || apply Ho).
Qed.

(** C4: the raw data key [mKey] is an invariant of every operation after
    construction.  [rekey], [encryptPage], [decryptPage],
    [decryptFirstPageCache], [resizePageBuffers], [writeKeyFile] and
    [readKeyFile] each end, by return or by exception, with [mKey] as it
    was before the call, for every starting state and every argument. *)
Theorem mKey_is_invariant :
  (∀ newFileKey keylen, keeps data_key (Crypto.rekey dc newFileKey keylen)) ∧
  (∀ page pageSize pageNo,
     keeps data_key (Crypto.encryptPage dc page pageSize pageNo)) ∧
  (∀ pageInOut pageSize pageNo,
     keeps data_key (Crypto.decryptPage dc pageInOut pageSize pageNo)) ∧
  keeps data_key (Crypto.decryptFirstPageCache dc) ∧
  (∀ size, keeps data_key (Crypto.resizePageBuffers (Rng:=Rng) size)) ∧
  keeps data_key (Crypto.writeKeyFile (Rng:=Rng)) ∧
  keeps data_key (Crypto.readKeyFile (Rng:=Rng)).
Proof.
  assert (Hw : keeps data_key (Crypto.writeKeyFile (Rng:=Rng)))
    by (by apply writeKeyFile_keeps).
  assert (Hr : ∀ size, keeps data_key (Crypto.resizePageBuffers (Rng:=Rng) size))
    by (intros; by apply resizePageBuffers_keeps).
  repeat apply conj.
  - intros. unfold Crypto.rekey.
    apply keeps_bind; [apply wrapKey_keeps_mKey | done].
  - intros. unfold Crypto.encryptPage. frame.
  - intros. unfold Crypto.decryptPage, Crypto.store. frame.
    intros w. unfold Crypto.load. destruct (Crypto.mem w !! _); [|done].
    unfold peek_or_undefined. by destruct (peek _ _).
  - unfold Crypto.decryptFirstPageCache. frame.
  - exact Hr.
  - exact Hw.
  - apply readKeyFile_keeps_mKey.
Qed.

(** C9: for a page number other than 1, [encryptPage] changes only the two
    page buffers (and whatever state the cipher keeps for itself): the
    first-page cache, the wrapped key, the data key, the keyfile path, the
    files on disk and the caller's memory are as before, however the call
    ends. *)
Theorem encryptPage_other_page_frame (page : list byte) (pageSize : N) (pageNo : Z) :
  pageNo ≠ 1%Z →
  keeps outside_page_buffers (Crypto.encryptPage dc page pageSize pageNo).
Proof.
  intros Hn. unfold Crypto.encryptPage.
  rewrite (proj2 (Z.eqb_neq pageNo 1) Hn). frame.
Qed.

(** C6: on an engine whose first-page cache is empty,
    [decryptFirstPageCache] returns normally, both page buffers are exactly
    max(0, 512) = 512 zero bytes, and nothing else has changed. *)
Theorem decryptFirstPageCache_empty_cache w :
  Crypto.mFirstPage (Crypto.this w) = [] →
  Crypto.decryptFirstPageCache dc w =
    Done tt (Crypto.on_this
               (λ c, Crypto.set_mPageBufferOut (λ _, replicate 512 x00)
                       (Crypto.set_mPageBufferIn (λ _, replicate 512 x00) c)) w).
Proof.
  intros He. unfold Crypto.decryptFirstPageCache, Crypto.resizePageBuffers.
  run. fields. rewrite He. cbn. reflexivity.
Qed.

(** C7: when [decryptPage] on a non-null [pageInOut] ends with an
    exception, that exception is the one the cipher's [decrypt] raised on
    the copied page, and the caller's memory (the bytes [pageInOut] points
    to among it) is exactly what it was before the call. *)
Theorem decryptPage_failure_leaves_page w (a : N) (pageSize : N) (pageNo : Z)
    (e : exn) w' :
  Crypto.decryptPage dc (Some a) pageSize pageNo w = Raised e w' →
  Crypto.mem w' = Crypto.mem w ∧
  ∃ block data out,
    Crypto.mem w !! a = Some block ∧ peek block pageSize = Some data ∧
    IDataCrypt.decrypt dc pageNo
      (Buffer.write data (Crypto.mPageBufferIn (Crypto.this w)))
      (Crypto.mKey (Crypto.this w))
      (Crypto.mPageBufferOut (Crypto.this w), Crypto.rng w) = Raised e out.
Proof.
  unfold Crypto.decryptPage, Crypto.load, Crypto.store, Crypto.with_out, zoom,
    peek_or_undefined.
  run. destruct (Crypto.mem w !! a) as [block|] eqn:Hb; [|done].
  destruct (peek block pageSize) as [data|] eqn:Hd; [|done].
  run. fields.
  destruct (IDataCrypt.decrypt dc pageNo _ _ _) as [[] [b r]|e' [b r]|] eqn:Hc;
    cbn; [|intros [= <- <-]; eauto 10|done].
  destruct (peek b pageSize); cbn; done.
Qed.

(** C5: [encryptPage(P, S, 1)], when the cipher has produced the ciphertext
    and the keyfile can be opened, returns the output buffer holding that
    ciphertext, has stored it in the first-page cache, and has rewritten
    the keyfile (wrapped key, then the new first page) within the call. *)
Theorem encryptPage_first_page w (page : list byte) (pageSize : N)
    (data ct : list byte) (r' : Rng) :
  peek page pageSize = Some data →
  IDataCrypt.encrypt dc 1
    (Buffer.write data (Crypto.mPageBufferIn (Crypto.this w)))
    (Crypto.mKey (Crypto.this w))
    (Crypto.mPageBufferOut (Crypto.this w), Crypto.rng w) = Done tt (ct, r') →
  Crypto.mFileName (Crypto.this w) ∉ Crypto.unwritable w →
  ∃ w', Crypto.encryptPage dc page pageSize 1 w = Done ct w' ∧
        Crypto.mPageBufferOut (Crypto.this w') = ct ∧
        Crypto.mFirstPage (Crypto.this w') = ct ∧
        Crypto.files w' !! Crypto.mFileName (Crypto.this w')
          = Some (Keyfile.written (Crypto.mWrappedKey (Crypto.this w)) ct).
Proof.
  intros Hp Hc Hw.
  unfold Crypto.encryptPage, peek_or_undefined, Crypto.with_out, zoom.
  rewrite Hp. run. cbn [Z.eqb Pos.eqb].
  destruct w as [[name key wrapped fp bin bout] fs uw r m]. fields.
  rewrite Hc. fields.
  rewrite writeKeyFile_run by done. fields.
  eexists. split; [reflexivity|]. cbn.
  by rewrite lookup_insert_eq.
Qed.

(** C10: what [writeKeyFile] puts on disk depends on [mWrappedKey] and
    [mFirstPage] alone.  Two states that agree on these two members, and
    differ in [mKey], in the page buffers or anywhere else, get the same
    bytes written to their keyfiles. *)
Theorem writeKeyFile_ignores_mKey w1 w2 :
  Crypto.mWrappedKey (Crypto.this w1) = Crypto.mWrappedKey (Crypto.this w2) →
  Crypto.mFirstPage (Crypto.this w1) = Crypto.mFirstPage (Crypto.this w2) →
  Crypto.mFileName (Crypto.this w1) ∉ Crypto.unwritable w1 →
  Crypto.mFileName (Crypto.this w2) ∉ Crypto.unwritable w2 →
  ∃ image,
    Crypto.writeKeyFile w1 =
      Done tt (Crypto.on_files <[Crypto.mFileName (Crypto.this w1) := image]> w1) ∧
    Crypto.writeKeyFile w2 =
      Done tt (Crypto.on_files <[Crypto.mFileName (Crypto.this w2) := image]> w2).
Proof.
  intros Hk Hp H1 H2. eexists. split.
  - by apply writeKeyFile_run.
  - rewrite Hk, Hp. by apply writeKeyFile_run.
Qed.

(** C3: [rekey(F', len)] on an engine with data key K, for a cipher that
    keeps the wrapping contract: K is unchanged, the wrapped-key member is
    the wrap of K under F', the keyfile is rewritten with it, unwrapping
    under F' gives K back, and unwrapping under any other external key
    fails. *)
Theorem rekey_rewraps_data_key w (newFileKey : list byte) (keylen : Z)
    (F' wrapped : list byte) (r' : Rng) :
  lawful_wrapping dc →
  peek newFileKey (to_uint32 keylen) = Some F' →
  IDataCrypt.wrapKey dc (Crypto.mKey (Crypto.this w)) F' ([], Crypto.rng w)
    = Done tt (wrapped, r') →
  Crypto.mFileName (Crypto.this w) ∉ Crypto.unwritable w →
  ∃ w', Crypto.rekey dc newFileKey keylen w = Done tt w' ∧
        Crypto.mKey (Crypto.this w') = Crypto.mKey (Crypto.this w) ∧
        Crypto.mWrappedKey (Crypto.this w') = wrapped ∧
        Crypto.files w' !! Crypto.mFileName (Crypto.this w')
          = Some (Keyfile.written wrapped (Crypto.mFirstPage (Crypto.this w))) ∧
        (∃ w'', Crypto.unwrapKey dc newFileKey keylen w' = Done tt w'' ∧
                Crypto.mKey (Crypto.this w'') = Crypto.mKey (Crypto.this w)) ∧
        (∀ (oldFileKey : list byte) (oldLen : Z) (F : list byte),
           peek oldFileKey (to_uint32 oldLen) = Some F → F ≠ F' →
           ∃ e w'', Crypto.unwrapKey dc oldFileKey oldLen w' = Raised e w'').
Proof.
  intros [Hsame Hother] Hp Hc Hw.
  unfold Crypto.rekey, Crypto.wrapKey, Crypto.unwrapKey, peek_or_undefined,
    Crypto.with_out, zoom.
  rewrite Hp. run.
  destruct w as [[name key old fp bin bout] fs uw r m]. fields.
  rewrite Hc. fields. rewrite writeKeyFile_run by done. fields.
  eexists. split; [reflexivity|]. cbn.
  rewrite lookup_insert_eq. repeat apply conj; try done.
  - destruct (Hsame _ _ _ _ _ Hc r') as [r3 ->]. fields. eauto.
  - intros oldFileKey oldLen F HF Hne. rewrite HF. fields.
    destruct (Hother _ _ _ _ _ F Hc Hne r') as (e & [b r3] & ->). fields. eauto.
Qed.

(** C1, as the code has it: constructing an engine with [exists == 0]
    names the keyfile after the database, generates a fresh data key and
    wraps it under the external key into the wrapped-key member; the
    constructor returns with the files on disk exactly as they were. *)
Theorem Crypto_new_database_in_memory w (dbFileName : string)
    (fileKey : list byte) (keylen : Z) (F key wrapped : list byte) (r1 r2 : Rng) :
  peek fileKey (to_uint32 keylen) = Some F →
  IDataCrypt.generateKey dc ([], Crypto.rng w) = Done tt (key, r1) →
  IDataCrypt.wrapKey dc key F ([], r1) = Done tt (wrapped, r2) →
  Crypto.Crypto dc dbFileName fileKey keylen 0 w =
    Done tt {| Crypto.this :=
                 {| Crypto.mFileName := dbFileName +:+ "-keyfile";
                    Crypto.mKey := key; Crypto.mWrappedKey := wrapped;
                    Crypto.mFirstPage := []; Crypto.mPageBufferIn := [];
                    Crypto.mPageBufferOut := [] |};
               Crypto.files := Crypto.files w;
               Crypto.unwritable := Crypto.unwritable w;
               Crypto.rng := r2; Crypto.mem := Crypto.mem w |}.
Proof.
  intros Hp Hg Hc.
  unfold Crypto.Crypto, Crypto.wrapKey, peek_or_undefined, Crypto.with_out, zoom.
  rewrite Hp. run. cbn [Z.eqb]. fields. rewrite Hg. fields. rewrite Hc. by fields.
Qed.

(** A keyfile written with a non-empty first page has the layout of the
    spec. *)
Lemma written_layout (wrapped firstPage : list byte) :
  Buffer.size wrapped < 2 ^ 32 →
  0 < Buffer.size firstPage →
  Buffer.size firstPage < 2 ^ 32 →
  Keyfile.written wrapped firstPage = Keyfile.layout wrapped firstPage.
Proof.
  intros Hk Hp0 Hp. unfold Keyfile.written, Keyfile.layout.
  rewrite !u32_small by done. rewrite (proj2 (N.ltb_lt _ _) Hp0).
  unfold Buffer.size. by rewrite !Nat2N.id, !firstn_all.
Qed.

(** Without a first page the writer stops after the wrapped key. *)
Lemma written_key_only (wrapped : list byte) :
  Buffer.size wrapped < 2 ^ 32 →
  Keyfile.written wrapped [] = le32 (Buffer.size wrapped) ++ wrapped.
Proof.
  intros Hk. unfold Keyfile.written. rewrite u32_small by done.
  unfold Buffer.size. cbn. by rewrite Nat2N.id, firstn_all, app_nil_r.
Qed.

(** The round trip of C2 where it holds: with a non-empty first page, an
    engine that opens the path [writeKeyFile] wrote reads both members
    back exactly. *)
Lemma keyfile_roundtrip w w2 :
  Buffer.size (Crypto.mWrappedKey (Crypto.this w)) < 2 ^ 32 →
  0 < Buffer.size (Crypto.mFirstPage (Crypto.this w)) →
  Buffer.size (Crypto.mFirstPage (Crypto.this w)) < 2 ^ 32 →
  Crypto.mFileName (Crypto.this w) ∉ Crypto.unwritable w →
  ∃ w1, Crypto.writeKeyFile w = Done tt w1 ∧
    (Crypto.mFileName (Crypto.this w2) = Crypto.mFileName (Crypto.this w) →
     Crypto.files w2 = Crypto.files w1 →
     ∃ w3, Crypto.readKeyFile w2 = Done tt w3 ∧
           Crypto.mWrappedKey (Crypto.this w3) = Crypto.mWrappedKey (Crypto.this w) ∧
           Crypto.mFirstPage (Crypto.this w3) = Crypto.mFirstPage (Crypto.this w)).
Proof.
  intros Hk Hp0 Hp Hw. eexists. split; [by apply writeKeyFile_run|].
  intros Hn Hf.
  erewrite readKeyFile_both; [by eauto|done..|].
  rewrite Hn, Hf. cbn. rewrite lookup_insert_eq. f_equal.
  by apply written_layout.
Qed.

(** The same round trip with an empty first page: the reader raises
    "Failed to read page size". *)
Lemma keyfile_without_first_page_unreadable w :
  Buffer.size (Crypto.mWrappedKey (Crypto.this w)) < 2 ^ 32 →
  Crypto.mFirstPage (Crypto.this w) = [] →
  Crypto.mFileName (Crypto.this w) ∉ Crypto.unwritable w →
  ∃ w1 w2, Crypto.writeKeyFile w = Done tt w1 ∧
           Crypto.readKeyFile w1 =
             Raised (runtime_error "Failed to read page size") w2.
Proof.
  intros Hk He Hw. do 2 eexists. split; [by apply writeKeyFile_run|].
  erewrite readKeyFile_key_only; [done|done|].
  cbn. rewrite lookup_insert_eq, He. f_equal. by apply written_key_only.
Qed.

End Claims.

(** ** The forwarding entries of the shim *)

Section Forwarders.
Context {OS : Type}.

Lemma call_real_run {A} (h : VFS.heap OS) (pVfs real : VFS.ptr)
    (tbl : VFS.sqlite3_vfs OS) (entry : VFS.sqlite3_vfs OS → VFS.ptr → M OS A) :
  VFS.VFS_REAL h pVfs = Some real →
  VFS.as_sqlite3_vfs h real = Some tbl →
  VFS.call_real h pVfs entry = entry tbl real.
Proof. intros Hv Ht. unfold VFS.call_real. by rewrite Hv, Ht. Qed.

(** C8: where [pVfs] is the shim, [real] the underlying VFS it holds and
    [tbl] the method table of that VFS, each of the fifteen entries other than [open], on any
    arguments, is the computation the underlying entry is on the same
    arguments and on the underlying VFS itself: same result, same effect,
    nothing added. *)
Theorem forwarders_are_verbatim (h : VFS.heap OS) (pVfs real : VFS.ptr)
    (tbl : VFS.sqlite3_vfs OS) :
  VFS.VFS_REAL h pVfs = Some real →
  VFS.as_sqlite3_vfs h real = Some tbl →
  (∀ zName syncDir,
     VFS.sVfsDelete h pVfs zName syncDir = VFS.xDelete tbl real zName syncDir) ∧
  (∀ zName flags pResOut,
     VFS.sVfsAccess h pVfs zName flags pResOut
     = VFS.xAccess tbl real zName flags pResOut) ∧
  (∀ zName nOut zOut,
     VFS.sVfsFullPathname h pVfs zName nOut zOut
     = VFS.xFullPathname tbl real zName nOut zOut) ∧
  (∀ zFilename, VFS.sVfsDlOpen h pVfs zFilename = VFS.xDlOpen tbl real zFilename) ∧
  (∀ nByte zErrMsg,
     VFS.sVfsDlError h pVfs nByte zErrMsg = VFS.xDlError tbl real nByte zErrMsg) ∧
  (∀ p zSymbol, VFS.sVfsDlSym h pVfs p zSymbol = VFS.xDlSym tbl real p zSymbol) ∧
  (∀ p, VFS.sVfsDlClose h pVfs p = VFS.xDlClose tbl real p) ∧
  (∀ nByte zOut,
     VFS.sVfsRandomness h pVfs nByte zOut = VFS.xRandomness tbl real nByte zOut) ∧
  (∀ microseconds,
     VFS.sVfsSleep h pVfs microseconds = VFS.xSleep tbl real microseconds) ∧
  (∀ pOut, VFS.sVfsCurrentTime h pVfs pOut = VFS.xCurrentTime tbl real pOut) ∧
  (∀ nErr zOut,
     VFS.sVfsGetLastError h pVfs nErr zOut = VFS.xGetLastError tbl real nErr zOut) ∧
  (∀ pOut, VFS.sVfsCurrentTimeInt64 h pVfs pOut = VFS.xCurrentTimeInt64 tbl real pOut) ∧
  (∀ zName pNewFunc,
     VFS.sVfsSetSystemCall h pVfs zName pNewFunc
     = VFS.xSetSystemCall tbl real zName pNewFunc) ∧
  (∀ zName, VFS.sVfsGetSystemCall h pVfs zName = VFS.xGetSystemCall tbl real zName) ∧
  (∀ zName, VFS.sVfsNextSystemCall h pVfs zName = VFS.xNextSystemCall tbl real zName).
Proof.
  intros Hv Ht.
  repeat apply conj; intros;
    unfold VFS.sVfsDelete, VFS.sVfsAccess, VFS.sVfsFullPathname, VFS.sVfsDlOpen,
      VFS.sVfsDlError, VFS.sVfsDlSym, VFS.sVfsDlClose, VFS.sVfsRandomness,
      VFS.sVfsSleep, VFS.sVfsCurrentTime, VFS.sVfsGetLastError,
      VFS.sVfsCurrentTimeInt64, VFS.sVfsSetSystemCall, VFS.sVfsGetSystemCall,
      VFS.sVfsNextSystemCall;
    by rewrite (call_real_run h pVfs real tbl).
Qed.

End Forwarders.

(** ** The sample cipher keeps the wrapping contract *)

Lemma toy_unwrap_wrap (key wrappingKey : list byte) :
  ToyCrypt.unwrap (ToyCrypt.wrap key wrappingKey) wrappingKey = Some key.
Proof.
  induction wrappingKey as [|b rest IH]; [done|].
  cbn. by rewrite (Byte.byte_dec_lb eq_refl).
Qed.

Lemma toy_unwrap_only_own_key (key wrappingKey otherKey out : list byte) :
  ToyCrypt.unwrap (ToyCrypt.wrap key wrappingKey) otherKey = Some out →
  otherKey = wrappingKey.
Proof.
  revert otherKey. induction wrappingKey as [|b rest IH]; intros [|b' other]; cbn;
    try done.
  destruct (Byte.eqb b' b) eqn:E; [|done].
  apply Byte.byte_dec_bl in E as ->. intros H. f_equal. by apply IH.
Qed.

Lemma ToyCrypt_lawful : lawful_wrapping ToyCrypt.cipher.
Proof.
  split.
  - intros key wk r wrapped r' [= <- <-] r2. exists r2. cbn.
    by rewrite toy_unwrap_wrap.
  - intros key wk r wrapped r' other [= <- <-] Hne r2. cbn.
    destruct (ToyCrypt.unwrap _ other) as [out|] eqn:E; [|by eauto].
    by apply toy_unwrap_only_own_key in E.
Qed.

(** ** The claims on the sample states *)

Lemma sample_keyfile_writable :
  Crypto.mFileName (Crypto.this Sample.world) ∉ Crypto.unwritable Sample.world.
Proof. apply not_elem_of_empty. Qed.

(** C1 as stated fails: the constructor has returned for a new database and
    no keyfile exists on disk. *)
Lemma Crypto_new_database_writes_no_keyfile :
  ∃ w', Crypto.Crypto ToyCrypt.cipher "db" Sample.secret 3 0 Sample.world
          = Done tt w' ∧
        Crypto.mFileName (Crypto.this w') = "db-keyfile" ∧
        Crypto.files w' !! "db-keyfile" = None.
Proof. eexists. split; [vm_compute; reflexivity|]. split; reflexivity. Qed.

Lemma Crypto_new_database_in_memory_witness :
  peek Sample.secret (to_uint32 3) = Some Sample.secret ∧
  IDataCrypt.generateKey ToyCrypt.cipher ([], Crypto.rng Sample.world)
    = Done tt ([x07; x08], 9) ∧
  IDataCrypt.wrapKey ToyCrypt.cipher [x07; x08] Sample.secret ([], 9)
    = Done tt (ToyCrypt.wrap [x07; x08] Sample.secret, 9) ∧
  Crypto.Crypto ToyCrypt.cipher "db" Sample.secret 3 0 Sample.world =
    Done tt {| Crypto.this :=
                 {| Crypto.mFileName := "db" +:+ "-keyfile";
                    Crypto.mKey := [x07; x08];
                    Crypto.mWrappedKey := ToyCrypt.wrap [x07; x08] Sample.secret;
                    Crypto.mFirstPage := []; Crypto.mPageBufferIn := [];
                    Crypto.mPageBufferOut := [] |};
               Crypto.files := Crypto.files Sample.world;
               Crypto.unwritable := Crypto.unwritable Sample.world;
               Crypto.rng := 9; Crypto.mem := Crypto.mem Sample.world |}.
Proof.
  split; [reflexivity|]. split; [reflexivity|]. split; [reflexivity|].
  apply (Crypto_new_database_in_memory ToyCrypt.cipher Sample.world "db"
           Sample.secret 3 Sample.secret [x07; x08] _ 9 9); reflexivity.
Defined.

(** C2 at an engine that has its wrapped key and no first page: the writer
    emits the key section alone, which is not the layout with a zero page
    size, and the reader then raises "Failed to read page size". *)
Theorem keyfile_roundtrip_fails_on_empty_first_page :
  Crypto.mFirstPage (Crypto.this Sample.world) = [] ∧
  Crypto.writeKeyFile Sample.world = Done tt Sample.world_key_only ∧
  Crypto.files Sample.world_key_only !! "db-keyfile"
    ≠ Some (Keyfile.layout (Crypto.mWrappedKey (Crypto.this Sample.world)) []) ∧
  Crypto.readKeyFile Sample.world_key_only
    = Raised (runtime_error "Failed to read page size") Sample.world_key_only.
Proof.
  split; [reflexivity|]. split; [by vm_compute|].
  split; [by vm_compute|]. by vm_compute.
Qed.

Lemma rekey_rewraps_data_key_witness :
  lawful_wrapping ToyCrypt.cipher ∧
  peek Sample.new_secret_block (to_uint32 3) = Some Sample.new_secret ∧
  IDataCrypt.wrapKey ToyCrypt.cipher (Crypto.mKey (Crypto.this Sample.world))
    Sample.new_secret ([], Crypto.rng Sample.world)
    = Done tt (Sample.rewrapped, 7) ∧
  (Crypto.mFileName (Crypto.this Sample.world) ∉ Crypto.unwritable Sample.world) ∧
  ∃ w', Crypto.rekey ToyCrypt.cipher Sample.new_secret_block 3 Sample.world
          = Done tt w' ∧
        Crypto.mKey (Crypto.this w') = Crypto.mKey (Crypto.this Sample.world) ∧
        Crypto.mWrappedKey (Crypto.this w') = Sample.rewrapped ∧
        Crypto.files w' !! Crypto.mFileName (Crypto.this w')
          = Some (Keyfile.written Sample.rewrapped
                    (Crypto.mFirstPage (Crypto.this Sample.world))) ∧
        (∃ w'', Crypto.unwrapKey ToyCrypt.cipher Sample.new_secret_block 3 w'
                  = Done tt w'' ∧
                Crypto.mKey (Crypto.this w'')
                  = Crypto.mKey (Crypto.this Sample.world)) ∧
        (∀ (oldFileKey : list byte) (oldLen : Z) (F : list byte),
           peek oldFileKey (to_uint32 oldLen) = Some F → F ≠ Sample.new_secret →
           ∃ e w'', Crypto.unwrapKey ToyCrypt.cipher oldFileKey oldLen w'
                      = Raised e w'').
Proof.
  split; [exact ToyCrypt_lawful|]. split; [reflexivity|]. split; [reflexivity|].
  split; [exact sample_keyfile_writable|].
  apply (rekey_rewraps_data_key ToyCrypt.cipher Sample.world
           Sample.new_secret_block 3 Sample.new_secret Sample.rewrapped 7);
    [exact ToyCrypt_lawful | reflexivity | reflexivity
    | exact sample_keyfile_writable].
Defined.

Lemma encryptPage_first_page_witness :
  peek [x48; x49; x4a] 2 = Some [x48; x49] ∧
  IDataCrypt.encrypt ToyCrypt.cipher 1
    (Buffer.write [x48; x49] (Crypto.mPageBufferIn (Crypto.this Sample.world)))
    (Crypto.mKey (Crypto.this Sample.world))
    (Crypto.mPageBufferOut (Crypto.this Sample.world), Crypto.rng Sample.world)
    = Done tt ([x01; x4f; x4e], 7) ∧
  (Crypto.mFileName (Crypto.this Sample.world) ∉ Crypto.unwritable Sample.world) ∧
  ∃ w', Crypto.encryptPage ToyCrypt.cipher [x48; x49; x4a] 2 1 Sample.world
          = Done [x01; x4f; x4e] w' ∧
        Crypto.mPageBufferOut (Crypto.this w') = [x01; x4f; x4e] ∧
        Crypto.mFirstPage (Crypto.this w') = [x01; x4f; x4e] ∧
        Crypto.files w' !! Crypto.mFileName (Crypto.this w')
          = Some (Keyfile.written (Crypto.mWrappedKey (Crypto.this Sample.world))
                                  [x01; x4f; x4e]).
Proof.
  split; [reflexivity|]. split; [reflexivity|].
  split; [exact sample_keyfile_writable|].
  apply (encryptPage_first_page ToyCrypt.cipher Sample.world [x48; x49; x4a] 2
           [x48; x49] [x01; x4f; x4e] 7);
    [reflexivity | reflexivity | exact sample_keyfile_writable].
Defined.

Lemma decryptFirstPageCache_empty_cache_witness :
  Crypto.mFirstPage (Crypto.this Sample.world) = [] ∧
  Crypto.decryptFirstPageCache ToyCrypt.cipher Sample.world =
    Done tt (Crypto.on_this
               (λ c, Crypto.set_mPageBufferOut (λ _, replicate 512 x00)
                       (Crypto.set_mPageBufferIn (λ _, replicate 512 x00) c))
               Sample.world).
Proof.
  split; [reflexivity|].
  apply (decryptFirstPageCache_empty_cache ToyCrypt.cipher Sample.world).
  reflexivity.
Defined.

(** The block at address 16 carries the tag of page 9; asked for page 8 the
    cipher refuses it. *)
Lemma sample_decryptPage_refused :
  Crypto.decryptPage ToyCrypt.cipher (Some 16) 3 8 Sample.world
  = Raised (cipher_error "decrypt") Sample.world_refused.
Proof. by vm_compute. Qed.

Lemma decryptPage_failure_leaves_page_witness :
  Crypto.decryptPage ToyCrypt.cipher (Some 16) 3 8 Sample.world
    = Raised (cipher_error "decrypt") Sample.world_refused ∧
  Crypto.mem Sample.world_refused = Crypto.mem Sample.world ∧
  ∃ block data out,
    Crypto.mem Sample.world !! 16 = Some block ∧ peek block 3 = Some data ∧
    IDataCrypt.decrypt ToyCrypt.cipher 8
      (Buffer.write data (Crypto.mPageBufferIn (Crypto.this Sample.world)))
      (Crypto.mKey (Crypto.this Sample.world))
      (Crypto.mPageBufferOut (Crypto.this Sample.world), Crypto.rng Sample.world)
      = Raised (cipher_error "decrypt") out.
Proof.
  split; [exact sample_decryptPage_refused|].
  exact (decryptPage_failure_leaves_page ToyCrypt.cipher Sample.world 16 3 8 _
           Sample.world_refused sample_decryptPage_refused).
Defined.

Lemma sample_VFS_REAL : VFS.VFS_REAL Sample.vfs_heap 100 = Some 200.
Proof. by vm_compute. Qed.

Lemma sample_underlying_table :
  VFS.as_sqlite3_vfs Sample.vfs_heap 200 = Some Sample.logging_vfs.
Proof. by vm_compute. Qed.

Lemma forwarders_are_verbatim_witness :
  VFS.VFS_REAL Sample.vfs_heap 100 = Some 200 ∧
  VFS.as_sqlite3_vfs Sample.vfs_heap 200 = Some Sample.logging_vfs ∧
  VFS.sVfsDelete Sample.vfs_heap 100 5 1 [] = Done 0%Z [1; 1]%Z ∧
  VFS.sVfsGetSystemCall Sample.vfs_heap 100 5 [] = Done 205 [14%Z].
Proof.
  split; [exact sample_VFS_REAL|]. split; [exact sample_underlying_table|].
  destruct (forwarders_are_verbatim Sample.vfs_heap 100 200 Sample.logging_vfs
              sample_VFS_REAL sample_underlying_table)
    as (Hdel & _ & _ & _ & _ & _ & _ & _ & _ & _ & _ & _ & _ & Hget & _).
  split.
  - rewrite Hdel. reflexivity.
  - rewrite Hget. reflexivity.
Defined.

Lemma encryptPage_other_page_frame_witness :
  (5 ≠ 1)%Z ∧
  keeps outside_page_buffers (Crypto.encryptPage ToyCrypt.cipher [x48; x49] 2 5).
Proof.
  split; [lia|].
  apply (encryptPage_other_page_frame ToyCrypt.cipher [x48; x49] 2 5). lia.
Defined.

Lemma writeKeyFile_ignores_mKey_witness :
  Crypto.mKey (Crypto.this Sample.world)
    ≠ Crypto.mKey (Crypto.this Sample.world_other_key) ∧
  Crypto.mWrappedKey (Crypto.this Sample.world)
    = Crypto.mWrappedKey (Crypto.this Sample.world_other_key) ∧
  Crypto.mFirstPage (Crypto.this Sample.world)
    = Crypto.mFirstPage (Crypto.this Sample.world_other_key) ∧
  ∃ image,
    Crypto.writeKeyFile Sample.world =
      Done tt (Crypto.on_files <["db-keyfile" := image]> Sample.world) ∧
    Crypto.writeKeyFile Sample.world_other_key =
      Done tt (Crypto.on_files <["db-keyfile" := image]> Sample.world_other_key).
Proof.
  split; [discriminate|]. split; [reflexivity|]. split; [reflexivity|].
  apply (writeKeyFile_ignores_mKey Sample.world Sample.world_other_key);
    [reflexivity | reflexivity | exact sample_keyfile_writable
    | exact sample_keyfile_writable].
Defined.

(** * Further properties of the engine *)

(** ** Reading short streams *)

Lemma fread_uint32_short (stream : list byte) :
  (length stream < 4)%nat → Crypto.fread 4 1 stream = (0, [], stream).
Proof.
  intros Hl. unfold Crypto.fread. change (4 =? 0) with false. cbv iota.
  assert (N.of_nat (length stream) / 4 = 0) as -> by (apply N.div_small; lia).
  reflexivity.
Qed.

Lemma fread_bytes_short (count : N) (stream : list byte) :
  N.of_nat (length stream) < count →
  Crypto.fread 1 count stream = (N.of_nat (length stream), stream, []).
Proof.
  intros Hl. unfold Crypto.fread. change (1 =? 0) with false. cbv iota.
  rewrite N.div_1_r, N.min_r by lia.
  rewrite N.mul_1_r, Nat2N.id. by rewrite firstn_all, drop_all.
Qed.

Section KeyfileErrors.
Context {Rng : Type}.
Implicit Types w : Crypto.World Rng.

(** X1: with no file at the keyfile's path, [readKeyFile] raises "Failed to
    open keyfile" and the engine and the disk are as before. *)
Theorem readKeyFile_missing_file w :
  Crypto.files w !! Crypto.mFileName (Crypto.this w) = None →
  Crypto.readKeyFile w = Raised (runtime_error "Failed to open keyfile") w.
Proof.
  intros Hf. unfold Crypto.readKeyFile, Crypto.try_catch, Crypto.fopen_rb. run.
  by rewrite Hf.
Qed.

(** X2: a keyfile of fewer than four bytes is refused with "Failed to read
    key size"; no member has been touched. *)
Theorem readKeyFile_short_header w (stream : list byte) :
  Crypto.files w !! Crypto.mFileName (Crypto.this w) = Some stream →
  (length stream < 4)%nat →
  Crypto.readKeyFile w = Raised (runtime_error "Failed to read key size") w.
Proof.
  intros Hf Hl. unfold Crypto.readKeyFile, Crypto.try_catch, Crypto.fopen_rb. run.
  rewrite Hf. by rewrite fread_uint32_short.
Qed.

(** X3: a keyfile whose recorded key size exceeds the bytes that follow is
    refused with "Failed to read key data"; [mWrappedKey] still holds what
    it held. *)
Theorem readKeyFile_short_key w (keySize : N) (rest : list byte) :
  keySize < 2 ^ 32 →
  Crypto.files w !! Crypto.mFileName (Crypto.this w) = Some (le32 keySize ++ rest) →
  N.of_nat (length rest) < keySize →
  Crypto.readKeyFile w = Raised (runtime_error "Failed to read key data") w.
Proof.
  intros Hk Hf Hl. unfold Crypto.readKeyFile, Crypto.try_catch, Crypto.fopen_rb. run.
  rewrite Hf. rewrite fread_uint32, uint32_at_le32, u32_small, N.eqb_refl by done.
  cbn [negb]. rewrite fread_bytes_short by done.
  by rewrite (proj2 (N.eqb_neq _ _)) by lia.
Qed.

(** X4: a keyfile whose recorded first-page size exceeds the bytes that
    follow is refused with "Failed to read page data"; by then [mWrappedKey]
    has been replaced by the key read, and [mFirstPage] is what it was. *)
Theorem readKeyFile_short_page w (wrapped : list byte) (pageSize : N)
    (rest : list byte) :
  Buffer.size wrapped < 2 ^ 32 →
  0 < pageSize → pageSize < 2 ^ 32 →
  Crypto.files w !! Crypto.mFileName (Crypto.this w)
    = Some (le32 (Buffer.size wrapped) ++ wrapped ++ le32 pageSize ++ rest) →
  N.of_nat (length rest) < pageSize →
  Crypto.readKeyFile w =
    Raised (runtime_error "Failed to read page data")
           (Crypto.on_this (Crypto.set_mWrappedKey (λ _, wrapped)) w).
Proof.
  intros Hk Hp0 Hp Hf Hl.
  unfold Crypto.readKeyFile, Crypto.try_catch, Crypto.fopen_rb. run.
  rewrite Hf. unfold Buffer.size in *.
  rewrite fread_uint32, uint32_at_le32, u32_small, ?N.eqb_refl by done. cbn [negb].
  rewrite fread_bytes, !N.eqb_refl. cbn [negb].
  rewrite fread_uint32, uint32_at_le32, u32_small, ?N.eqb_refl by done. cbn [negb].
  rewrite (proj2 (N.ltb_lt _ _) Hp0).
  rewrite fread_bytes_short by done.
  rewrite (proj2 (N.eqb_neq _ _)) by lia. cbn. by fields.
Qed.

(** X5: a keyfile that records a first-page size of zero is accepted, with
    whatever follows it: [mWrappedKey] is replaced by the key read, and
    [mFirstPage] is left as it was, not emptied. *)
Theorem readKeyFile_zero_page_size w (wrapped trailing : list byte) :
  Buffer.size wrapped < 2 ^ 32 →
  Crypto.files w !! Crypto.mFileName (Crypto.this w)
    = Some (Keyfile.layout wrapped [] ++ trailing) →
  Crypto.readKeyFile w =
    Done tt (Crypto.on_this (Crypto.set_mWrappedKey (λ _, wrapped)) w).
Proof.
  intros Hk Hf.
  unfold Crypto.readKeyFile, Crypto.try_catch, Crypto.fopen_rb. run.
  rewrite Hf. unfold Keyfile.layout, Buffer.size in *.
  rewrite <- !app_assoc.
  rewrite fread_uint32, uint32_at_le32, u32_small, ?N.eqb_refl by done. cbn [negb].
  rewrite fread_bytes, !N.eqb_refl. cbn [negb].
  rewrite fread_uint32, uint32_at_le32. cbn. by fields.
Qed.

(** X6: writing the keyfile twice leaves the world as writing it once does,
    whether the path can be opened or not. *)
Theorem writeKeyFile_idempotent w :
  (Crypto.writeKeyFile ;; Crypto.writeKeyFile) w = Crypto.writeKeyFile w.
Proof.
  run. destruct (decide (Crypto.mFileName (Crypto.this w) ∈ Crypto.unwritable w))
    as [Hin|Hout].
  - by rewrite writeKeyFile_refused.
  - rewrite (writeKeyFile_run w) by done.
    rewrite writeKeyFile_run by done. fields. by rewrite insert_insert_eq.
Qed.

End KeyfileErrors.

Section Reopening.
Context {Rng : Type} (dc : IDataCrypt.t Rng).
Implicit Types w : Crypto.World Rng.

(** The state the constructor ends in on an existing database whose
    keyfile holds both sections. *)
Lemma Crypto_existing_database_run w (dbFileName : string) (fileKey : list byte)
    (keylen exists_ : Z) (F wrapped firstPage key : list byte) (r' : Rng) :
  exists_ ≠ 0%Z →
  Buffer.size wrapped < 2 ^ 32 →
  0 < Buffer.size firstPage → Buffer.size firstPage < 2 ^ 32 →
  Crypto.files w !! (dbFileName +:+ "-keyfile")
    = Some (Keyfile.layout wrapped firstPage) →
  peek fileKey (to_uint32 keylen) = Some F →
  IDataCrypt.unwrapKey dc wrapped F ([], Crypto.rng w) = Done tt (key, r') →
  Crypto.Crypto dc dbFileName fileKey keylen exists_ w =
    Done tt {| Crypto.this :=
                 {| Crypto.mFileName := dbFileName +:+ "-keyfile";
                    Crypto.mKey := key; Crypto.mWrappedKey := wrapped;
                    Crypto.mFirstPage := firstPage; Crypto.mPageBufferIn := [];
                    Crypto.mPageBufferOut := [] |};
               Crypto.files := Crypto.files w;
               Crypto.unwritable := Crypto.unwritable w;
               Crypto.rng := r'; Crypto.mem := Crypto.mem w |}.
Proof.
  intros He Hk Hp0 Hp Hf HF Hu.
  unfold Crypto.Crypto. rewrite (proj2 (Z.eqb_neq _ _) He). run.
  erewrite readKeyFile_both; [|exact Hk|exact Hp0|exact Hp|exact Hf].
  unfold Crypto.unwrapKey, peek_or_undefined, Crypto.with_out, zoom.
  rewrite HF. run. fields. rewrite Hu. by fields.
Qed.

(** X7: constructing on an existing database whose keyfile holds both
    sections, under an external key the cipher unwraps with, returns an
    engine named after the database whose wrapped key and first-page cache
    are the bytes of the file and whose data key is the one unwrapped; its
    page buffers are empty and the disk is as before. *)
Theorem Crypto_existing_database w (dbFileName : string) (fileKey : list byte)
    (keylen exists_ : Z) (F wrapped firstPage key : list byte) (r' : Rng) :
  exists_ ≠ 0%Z →
  Buffer.size wrapped < 2 ^ 32 →
  0 < Buffer.size firstPage → Buffer.size firstPage < 2 ^ 32 →
  Crypto.files w !! (dbFileName +:+ "-keyfile")
    = Some (Keyfile.layout wrapped firstPage) →
  peek fileKey (to_uint32 keylen) = Some F →
  IDataCrypt.unwrapKey dc wrapped F ([], Crypto.rng w) = Done tt (key, r') →
  ∃ w', Crypto.Crypto dc dbFileName fileKey keylen exists_ w = Done tt w' ∧
        Crypto.mFileName (Crypto.this w') = dbFileName +:+ "-keyfile" ∧
        Crypto.mKey (Crypto.this w') = key ∧
        Crypto.mWrappedKey (Crypto.this w') = wrapped ∧
        Crypto.mFirstPage (Crypto.this w') = firstPage ∧
        Crypto.mPageBufferIn (Crypto.this w') = [] ∧
        Crypto.mPageBufferOut (Crypto.this w') = [] ∧
        Crypto.files w' = Crypto.files w.
Proof.
  intros He Hk Hp0 Hp Hf HF Hu. eexists. split.
  - by apply (Crypto_existing_database_run w dbFileName fileKey keylen exists_ F
                wrapped firstPage key r').
  - done.
Qed.

(** X8: constructing on an existing database whose keyfile is missing raises
    "Failed to open keyfile" before the cipher is asked anything: disk,
    cipher state and caller memory are as before. *)
Theorem Crypto_existing_database_no_keyfile w (dbFileName : string)
    (fileKey : list byte) (keylen exists_ : Z) :
  exists_ ≠ 0%Z →
  Crypto.files w !! (dbFileName +:+ "-keyfile") = None →
  ∃ w', Crypto.Crypto dc dbFileName fileKey keylen exists_ w
          = Raised (runtime_error "Failed to open keyfile") w' ∧
        Crypto.files w' = Crypto.files w ∧ Crypto.rng w' = Crypto.rng w ∧
        Crypto.mem w' = Crypto.mem w.
Proof.
  intros He Hf.
  unfold Crypto.Crypto. rewrite (proj2 (Z.eqb_neq _ _) He). run.
  unfold Crypto.readKeyFile, Crypto.try_catch, Crypto.fopen_rb. run.
  fields. rewrite Hf. eauto.
Qed.

(** X9: constructing on an existing database with an external key other than
    the one its data key was wrapped under, for a cipher that keeps the
    wrapping contract: the constructor raises, no engine is produced. *)
Theorem Crypto_existing_database_wrong_key w (dbFileName : string)
    (fileKey : list byte) (keylen exists_ : Z)
    (F F0 key wrapped firstPage : list byte) (r0 r1 : Rng) :
  lawful_wrapping dc →
  exists_ ≠ 0%Z →
  IDataCrypt.wrapKey dc key F0 ([], r0) = Done tt (wrapped, r1) →
  Buffer.size wrapped < 2 ^ 32 →
  0 < Buffer.size firstPage → Buffer.size firstPage < 2 ^ 32 →
  Crypto.files w !! (dbFileName +:+ "-keyfile")
    = Some (Keyfile.layout wrapped firstPage) →
  peek fileKey (to_uint32 keylen) = Some F →
  F ≠ F0 →
  ∃ e w', Crypto.Crypto dc dbFileName fileKey keylen exists_ w = Raised e w'.
Proof.
  intros [_ Hother] He Hc Hk Hp0 Hp Hf HF Hne.
  unfold Crypto.Crypto. rewrite (proj2 (Z.eqb_neq _ _) He). run.
  erewrite readKeyFile_both; [|exact Hk|exact Hp0|exact Hp|exact Hf].
  unfold Crypto.unwrapKey, peek_or_undefined, Crypto.with_out, zoom.
  rewrite HF. run. fields.
  destruct (Hother _ _ _ _ _ F Hc Hne (Crypto.rng w)) as (e & [b r3] & ->).
  fields. eauto.
Qed.

(** The state [encryptPage] for page 1 ends in when everything goes
    through. *)
Lemma encryptPage_first_page_run w (page : list byte) (pageSize : N)
    (data ct : list byte) (r' : Rng) :
  peek page pageSize = Some data →
  IDataCrypt.encrypt dc 1
    (Buffer.write data (Crypto.mPageBufferIn (Crypto.this w)))
    (Crypto.mKey (Crypto.this w))
    (Crypto.mPageBufferOut (Crypto.this w), Crypto.rng w) = Done tt (ct, r') →
  Crypto.mFileName (Crypto.this w) ∉ Crypto.unwritable w →
  Crypto.encryptPage dc page pageSize 1 w =
    Done ct
      {| Crypto.this :=
           {| Crypto.mFileName := Crypto.mFileName (Crypto.this w);
              Crypto.mKey := Crypto.mKey (Crypto.this w);
              Crypto.mWrappedKey := Crypto.mWrappedKey (Crypto.this w);
              Crypto.mFirstPage := ct;
              Crypto.mPageBufferIn :=
                Buffer.write data (Crypto.mPageBufferIn (Crypto.this w));
              Crypto.mPageBufferOut := ct |};
         Crypto.files :=
           <[Crypto.mFileName (Crypto.this w) :=
               Keyfile.written (Crypto.mWrappedKey (Crypto.this w)) ct]>
             (Crypto.files w);
         Crypto.unwritable := Crypto.unwritable w;
         Crypto.rng := r'; Crypto.mem := Crypto.mem w |}.
Proof.
  intros Hp Hc Hw.
  unfold Crypto.encryptPage, peek_or_undefined, Crypto.with_out, zoom.
  rewrite Hp. run. cbn [Z.eqb Pos.eqb].
  destruct w as [[name key wrapped fp bin bout] fs uw r m]. fields.
  rewrite Hc. fields. rewrite writeKeyFile_run by done. by fields.
Qed.

(** X10: [encryptPage] for page 1 on a keyfile path that cannot be opened: the
    call raises "Failed to open keyfile" with the new ciphertext already
    in the first-page cache and the disk untouched, so cache and keyfile
    differ from then on. *)
Theorem encryptPage_first_page_unwritable w (page : list byte) (pageSize : N)
    (data ct : list byte) (r' : Rng) :
  peek page pageSize = Some data →
  IDataCrypt.encrypt dc 1
    (Buffer.write data (Crypto.mPageBufferIn (Crypto.this w)))
    (Crypto.mKey (Crypto.this w))
    (Crypto.mPageBufferOut (Crypto.this w), Crypto.rng w) = Done tt (ct, r') →
  Crypto.mFileName (Crypto.this w) ∈ Crypto.unwritable w →
  ∃ w', Crypto.encryptPage dc page pageSize 1 w
          = Raised (runtime_error "Failed to open keyfile") w' ∧
        Crypto.mFirstPage (Crypto.this w') = ct ∧
        Crypto.mPageBufferOut (Crypto.this w') = ct ∧
        Crypto.files w' = Crypto.files w.
Proof.
  intros Hp Hc Hw.
  unfold Crypto.encryptPage, peek_or_undefined, Crypto.with_out, zoom.
  rewrite Hp. run. cbn [Z.eqb Pos.eqb].
  destruct w as [[name key wrapped fp bin bout] fs uw r m]. fields.
  rewrite Hc. fields. rewrite writeKeyFile_refused by done. eauto.
Qed.

(** X11: [encryptPage] for another page, when the cipher returns: the value
    handed back is the ciphertext, and the world differs from the one
    before in the two page buffers and the cipher's state only. *)
Theorem encryptPage_other_page_result w (page : list byte) (pageSize : N)
    (pageNo : Z) (data ct : list byte) (r' : Rng) :
  pageNo ≠ 1%Z →
  peek page pageSize = Some data →
  IDataCrypt.encrypt dc pageNo
    (Buffer.write data (Crypto.mPageBufferIn (Crypto.this w)))
    (Crypto.mKey (Crypto.this w))
    (Crypto.mPageBufferOut (Crypto.this w), Crypto.rng w) = Done tt (ct, r') →
  Crypto.encryptPage dc page pageSize pageNo w =
    Done ct
      (Crypto.set_rng r'
         (Crypto.on_this
            (λ c, Crypto.set_mPageBufferOut (λ _, ct)
                    (Crypto.set_mPageBufferIn (Buffer.write data) c)) w)).
Proof.
  intros Hn Hp Hc.
  unfold Crypto.encryptPage, peek_or_undefined, Crypto.with_out, zoom.
  rewrite Hp, (proj2 (Z.eqb_neq _ _) Hn). run.
  destruct w as [[name key wrapped fp bin bout] fs uw r m]. fields.
  rewrite Hc. by fields.
Qed.

(** X12: the first page written through [encryptPage] is there for the next
    engine: constructing on the existing database, under an external key
    that unwraps the wrapped key, gives an engine whose cache holds the
    ciphertext and whose data key is the unwrapped one. *)
Theorem first_page_survives_reopen w (dbFileName : string)
    (page : list byte) (pageSize : N) (data ct : list byte) (r1 : Rng)
    (fileKey : list byte) (keylen : Z) (F key : list byte) (r2 : Rng) :
  Crypto.mFileName (Crypto.this w) = dbFileName +:+ "-keyfile" →
  peek page pageSize = Some data →
  IDataCrypt.encrypt dc 1
    (Buffer.write data (Crypto.mPageBufferIn (Crypto.this w)))
    (Crypto.mKey (Crypto.this w))
    (Crypto.mPageBufferOut (Crypto.this w), Crypto.rng w) = Done tt (ct, r1) →
  Crypto.mFileName (Crypto.this w) ∉ Crypto.unwritable w →
  Buffer.size (Crypto.mWrappedKey (Crypto.this w)) < 2 ^ 32 →
  0 < Buffer.size ct → Buffer.size ct < 2 ^ 32 →
  peek fileKey (to_uint32 keylen) = Some F →
  IDataCrypt.unwrapKey dc (Crypto.mWrappedKey (Crypto.this w)) F ([], r1)
    = Done tt (key, r2) →
  ∃ w1 w2,
    Crypto.encryptPage dc page pageSize 1 w = Done ct w1 ∧
    Crypto.Crypto dc dbFileName fileKey keylen 1 w1 = Done tt w2 ∧
    Crypto.mFirstPage (Crypto.this w2) = ct ∧
    Crypto.mWrappedKey (Crypto.this w2) = Crypto.mWrappedKey (Crypto.this w) ∧
    Crypto.mKey (Crypto.this w2) = key.
Proof.
  intros Hn Hp Hc Hw Hk Hc0 Hcs HF Hu.
  do 2 eexists. split; [by apply encryptPage_first_page_run|].
  split.
  - apply (Crypto_existing_database_run _ dbFileName fileKey keylen 1 F
             (Crypto.mWrappedKey (Crypto.this w)) ct key r2);
      try done.
    cbn. rewrite <- Hn, lookup_insert_eq. f_equal. by apply written_layout.
  - done.
Qed.

End Reopening.

Section Decryption.
Context {Rng : Type} (dc : IDataCrypt.t Rng).
Implicit Types w : Crypto.World Rng.

Lemma load_keeps {X} (view : Crypto.World Rng → X) (a len : N) :
  keeps view (Crypto.load (Rng:=Rng) a len).
Proof.
  intros w. unfold Crypto.load. destruct (Crypto.mem w !! a); [|done].
  unfold peek_or_undefined. by destruct (peek _ _).
Qed.

(** X13: [decryptPage] with a null [pageInOut] reads nothing from and copies
    nothing to the caller, and leaves the input buffer alone: however it
    ends, only the output buffer and the cipher's state can have changed. *)
Theorem decryptPage_null_pointer (pageSize : N) (pageNo : Z) :
  keeps outside_output_buffer (Crypto.decryptPage dc None pageSize pageNo).
Proof. unfold Crypto.decryptPage. frame. Qed.

(** X14: decryption is read-only on the keys, the cache and the disk:
    [decryptPage], [decryptFirstPageCache] and [resizePageBuffers] end, by
    return or by exception, with the keyfile's name, both keys, the
    first-page cache and every file as before. *)
Theorem decryption_keeps_keys_cache_and_disk :
  (∀ pageInOut pageSize pageNo,
     keeps keys_cache_and_disk (Crypto.decryptPage dc pageInOut pageSize pageNo)) ∧
  keeps keys_cache_and_disk (Crypto.decryptFirstPageCache dc) ∧
  (∀ size, keeps keys_cache_and_disk (Crypto.resizePageBuffers (Rng:=Rng) size)).
Proof.
  assert (Hr : ∀ size,
             keeps keys_cache_and_disk (Crypto.resizePageBuffers (Rng:=Rng) size))
    by (intros; by apply resizePageBuffers_keeps).
  repeat apply conj.
  - intros. unfold Crypto.decryptPage, Crypto.store. frame. apply load_keeps.
  - unfold Crypto.decryptFirstPageCache. frame.
  - exact Hr.
Qed.

(** X15: a [decryptPage] that returns has overwritten the first [pageSize] bytes
    of the caller's block with the first [pageSize] bytes of the output
    buffer; the rest of the block and every other block are as before. *)
Theorem decryptPage_in_place w (a pageSize : N) (pageNo : Z) w' :
  Crypto.decryptPage dc (Some a) pageSize pageNo w = Done tt w' →
  ∃ block plain,
    Crypto.mem w !! a = Some block ∧
    peek (Crypto.mPageBufferOut (Crypto.this w')) pageSize = Some plain ∧
    Crypto.mem w' = <[a := plain ++ drop (length plain) block]> (Crypto.mem w).
Proof.
  unfold Crypto.decryptPage, Crypto.load, Crypto.store, Crypto.with_out, zoom,
    peek_or_undefined.
  run. destruct (Crypto.mem w !! a) as [block|] eqn:Hb; [|done].
  destruct (peek block pageSize) as [data|]; [|done].
  run. fields.
  destruct (IDataCrypt.decrypt dc pageNo _ _ _) as [[] [b r]|e' [b r]|];
    cbn; [|done..].
  destruct (peek b pageSize) as [plain|] eqn:Hp; cbn; [|done].
  intros [= <-]. cbn. exists block, plain. rewrite Hp.
  split; [done|]. split; [done|]. by erewrite alter_alt_Some by exact Hb.
Qed.

(** X16: [decryptFirstPageCache] on a non-empty cache: both buffers are cleared
    to max(cache size, 512) zero bytes, then the cipher decrypts the cache
    as page 1 into the output buffer; the cache itself stays. *)
Theorem decryptFirstPageCache_cached_page w (plain : list byte) (r' : Rng) :
  0 < Buffer.size (Crypto.mFirstPage (Crypto.this w)) →
  IDataCrypt.decrypt dc 1 (Crypto.mFirstPage (Crypto.this w))
    (Crypto.mKey (Crypto.this w))
    (replicate
       (N.to_nat (N.max (Buffer.size (Crypto.mFirstPage (Crypto.this w))) 512))
       x00,
     Crypto.rng w) = Done tt (plain, r') →
  Crypto.decryptFirstPageCache dc w =
    Done tt
      (Crypto.set_rng r'
         (Crypto.on_this
            (λ c, Crypto.set_mPageBufferOut (λ _, plain)
                    (Crypto.set_mPageBufferIn
                       (λ _, replicate
                               (N.to_nat
                                  (N.max (Buffer.size
                                            (Crypto.mFirstPage (Crypto.this w)))
                                         512))
                               x00) c)) w)).
Proof.
  intros Hp Hc.
  unfold Crypto.decryptFirstPageCache, Crypto.resizePageBuffers, Crypto.with_out,
    zoom.
  run. destruct w as [[name key wrapped fp bin bout] fs uw r m].
  unfold Crypto.on_this, Crypto.on_files, Crypto.on_mem, Crypto.set_rng,
    Crypto.set_mKey, Crypto.set_mWrappedKey, Crypto.set_mFirstPage,
    Crypto.set_mPageBufferIn, Crypto.set_mPageBufferOut, Buffer.clear in *.
  cbn [Crypto.this Crypto.mFirstPage Crypto.mKey Crypto.rng Crypto.mPageBufferOut
       Crypto.mPageBufferIn Crypto.mFileName Crypto.mWrappedKey Crypto.files
       Crypto.unwritable Crypto.mem fst snd] in *.
  rewrite (proj2 (N.ltb_lt _ _) Hp), !padd_nil. unfold Buffer.t in *.
  cbv beta.
  cbn [Crypto.this Crypto.mFirstPage Crypto.mKey Crypto.rng Crypto.mPageBufferOut
       Crypto.mPageBufferIn Crypto.mFileName Crypto.mWrappedKey Crypto.files
       Crypto.unwritable Crypto.mem].
  rewrite Hc. reflexivity.
Qed.

End Decryption.

Section Failures.
Context {Rng : Type} (dc : IDataCrypt.t Rng).
Implicit Types w : Crypto.World Rng.

Lemma writeKeyFile_raised w e w' :
  Crypto.writeKeyFile w = Raised e w' → w' = w.
Proof.
  destruct (decide (Crypto.mFileName (Crypto.this w) ∈ Crypto.unwritable w)).
  - rewrite writeKeyFile_refused by done. by intros [= _ <-].
  - by rewrite writeKeyFile_run.
Qed.

(** X17: a call that fails leaves the disk alone: when [writeKeyFile], [rekey]
    or [encryptPage] ends with an exception, every file is as it was
    before the call (for [writeKeyFile] the whole world is). *)
Theorem failed_calls_keep_the_disk :
  keeps_when_raised id (Crypto.writeKeyFile (Rng:=Rng)) ∧
  (∀ newFileKey keylen,
     keeps_when_raised Crypto.files (Crypto.rekey dc newFileKey keylen)) ∧
  (∀ page pageSize pageNo,
     keeps_when_raised Crypto.files (Crypto.encryptPage dc page pageSize pageNo)).
Proof.
  repeat apply conj.
  - intros w e w'. apply writeKeyFile_raised.
  - intros newFileKey keylen w e w'.
    unfold Crypto.rekey, Crypto.wrapKey, peek_or_undefined, Crypto.with_out, zoom.
    destruct (peek newFileKey _); run; [|done].
    destruct (IDataCrypt.wrapKey dc _ _ _) as [[] [b r]|e' [b r]|]; cbn;
      [|by intros [= _ <-]|done].
    intros H%writeKeyFile_raised. by subst.
  - intros page pageSize pageNo w e w'.
    unfold Crypto.encryptPage, peek_or_undefined, Crypto.with_out, zoom.
    destruct (peek page _); run; [|done].
    destruct (IDataCrypt.encrypt dc _ _ _ _) as [[] [b r]|e' [b r]|]; cbn;
      [|by intros [= _ <-]|done].
    destruct (pageNo =? 1)%Z; cbn; [|done].
    destruct (Crypto.writeKeyFile _) as [[] w1|e1 w1|] eqn:Hw; [done| |done].
    intros [= _ <-]. apply writeKeyFile_raised in Hw. by subst.
Qed.

(** X18: [rekey] on a keyfile path that cannot be opened: the call raises
    "Failed to open keyfile" with the wrapped key in memory already the new
    one and the disk untouched, so the keyfile on disk still opens under
    the old external key only. *)
Theorem rekey_unwritable w (newFileKey : list byte) (keylen : Z)
    (F' wrapped : list byte) (r' : Rng) :
  peek newFileKey (to_uint32 keylen) = Some F' →
  IDataCrypt.wrapKey dc (Crypto.mKey (Crypto.this w)) F' ([], Crypto.rng w)
    = Done tt (wrapped, r') →
  Crypto.mFileName (Crypto.this w) ∈ Crypto.unwritable w →
  ∃ w', Crypto.rekey dc newFileKey keylen w
          = Raised (runtime_error "Failed to open keyfile") w' ∧
        Crypto.mWrappedKey (Crypto.this w') = wrapped ∧
        Crypto.mKey (Crypto.this w') = Crypto.mKey (Crypto.this w) ∧
        Crypto.files w' = Crypto.files w.
Proof.
  intros Hp Hc Hw.
  unfold Crypto.rekey, Crypto.wrapKey, peek_or_undefined, Crypto.with_out, zoom.
  rewrite Hp. run.
  destruct w as [[name key old fp bin bout] fs uw r m]. fields.
  rewrite Hc. fields. rewrite writeKeyFile_refused by done. eauto.
Qed.

(** X19: rotating the external key of an engine that has a first page cached,
    then opening the database again under the new key, for a cipher that
    keeps the wrapping contract: the new engine has the same data key and
    the same cached first page. *)
Theorem rekey_survives_reopen w (dbFileName : string) (newFileKey : list byte)
    (keylen : Z) (F' wrapped : list byte) (r' : Rng) :
  lawful_wrapping dc →
  Crypto.mFileName (Crypto.this w) = dbFileName +:+ "-keyfile" →
  peek newFileKey (to_uint32 keylen) = Some F' →
  IDataCrypt.wrapKey dc (Crypto.mKey (Crypto.this w)) F' ([], Crypto.rng w)
    = Done tt (wrapped, r') →
  Crypto.mFileName (Crypto.this w) ∉ Crypto.unwritable w →
  Buffer.size wrapped < 2 ^ 32 →
  0 < Buffer.size (Crypto.mFirstPage (Crypto.this w)) →
  Buffer.size (Crypto.mFirstPage (Crypto.this w)) < 2 ^ 32 →
  ∃ w1 w2,
    Crypto.rekey dc newFileKey keylen w = Done tt w1 ∧
    Crypto.Crypto dc dbFileName newFileKey keylen 1 w1 = Done tt w2 ∧
    Crypto.mKey (Crypto.this w2) = Crypto.mKey (Crypto.this w) ∧
    Crypto.mFirstPage (Crypto.this w2) = Crypto.mFirstPage (Crypto.this w).
Proof.
  intros [Hsame _] Hn Hp Hc Hw Hk Hf0 Hfs.
  destruct (Hsame _ _ _ _ _ Hc r') as [r3 Hu].
  assert (Hrun : Crypto.rekey dc newFileKey keylen w =
            Done tt (Crypto.on_files
                       <[Crypto.mFileName (Crypto.this w) :=
                           Keyfile.written wrapped
                             (Crypto.mFirstPage (Crypto.this w))]>
                       (Crypto.set_rng r'
                          (Crypto.on_this
                             (Crypto.set_mWrappedKey (λ _, wrapped)) w)))).
  { unfold Crypto.rekey, Crypto.wrapKey, peek_or_undefined, Crypto.with_out, zoom.
    rewrite Hp. run.
    destruct w as [[name key old fp bin bout] fs uw r m]. fields.
    rewrite Hc. fields. by rewrite writeKeyFile_run. }
  do 2 eexists. split; [exact Hrun|]. split.
  - apply (Crypto_existing_database_run dc _ dbFileName newFileKey keylen 1 F'
             wrapped (Crypto.mFirstPage (Crypto.this w))
             (Crypto.mKey (Crypto.this w)) r3); try done.
    cbn. rewrite <- Hn, lookup_insert_eq. f_equal. by apply written_layout.
  - done.
Qed.

End Failures.

(** ** The further properties on the sample states *)

Lemma readKeyFile_missing_file_witness :
  Crypto.files Sample.world !! "db-keyfile" = None ∧
  Crypto.readKeyFile Sample.world
    = Raised (runtime_error "Failed to open keyfile") Sample.world.
Proof.
  split; [reflexivity|].
  apply (readKeyFile_missing_file Sample.world). reflexivity.
Defined.

Lemma readKeyFile_short_header_witness :
  (length [x09; x00] < 4)%nat ∧
  Crypto.readKeyFile (Scenario.with_keyfile [x09; x00])
    = Raised (runtime_error "Failed to read key size")
             (Scenario.with_keyfile [x09; x00]).
Proof.
  split; [cbn; lia|].
  apply (readKeyFile_short_header (Scenario.with_keyfile [x09; x00]) [x09; x00]);
    [by vm_compute | cbn; lia].
Defined.

Lemma readKeyFile_short_key_witness :
  5 < 2 ^ 32 ∧ N.of_nat (length [x2a]) < 5 ∧
  Crypto.readKeyFile (Scenario.with_keyfile (le32 5 ++ [x2a]))
    = Raised (runtime_error "Failed to read key data")
             (Scenario.with_keyfile (le32 5 ++ [x2a])).
Proof.
  split; [reflexivity|]. split; [reflexivity|].
  apply (readKeyFile_short_key (Scenario.with_keyfile (le32 5 ++ [x2a])) 5 [x2a]);
    [reflexivity | by vm_compute | reflexivity].
Defined.

Lemma readKeyFile_short_page_witness :
  Buffer.size [x2a] < 2 ^ 32 ∧ 0 < 4 ∧ 4 < 2 ^ 32 ∧ N.of_nat (length [x01]) < 4 ∧
  Crypto.readKeyFile
    (Scenario.with_keyfile (le32 1 ++ [x2a] ++ le32 4 ++ [x01]))
    = Raised (runtime_error "Failed to read page data")
        (Crypto.on_this (Crypto.set_mWrappedKey (λ _, [x2a]))
           (Scenario.with_keyfile (le32 1 ++ [x2a] ++ le32 4 ++ [x01]))).
Proof.
  split; [reflexivity|]. split; [reflexivity|]. split; [reflexivity|].
  split; [reflexivity|].
  apply (readKeyFile_short_page
           (Scenario.with_keyfile (le32 1 ++ [x2a] ++ le32 4 ++ [x01]))
           [x2a] 4 [x01]);
    [reflexivity | reflexivity | reflexivity | by vm_compute | reflexivity].
Defined.

Lemma readKeyFile_zero_page_size_witness :
  Buffer.size [x2a] < 2 ^ 32 ∧
  Crypto.mFirstPage
    (Crypto.this (Scenario.with_keyfile (Keyfile.layout [x2a] [] ++ [xff])))
    = [xbb; xcc] ∧
  Crypto.readKeyFile (Scenario.with_keyfile (Keyfile.layout [x2a] [] ++ [xff]))
    = Done tt
        (Crypto.on_this (Crypto.set_mWrappedKey (λ _, [x2a]))
           (Scenario.with_keyfile (Keyfile.layout [x2a] [] ++ [xff]))).
Proof.
  split; [reflexivity|]. split; [reflexivity|].
  apply (readKeyFile_zero_page_size
           (Scenario.with_keyfile (Keyfile.layout [x2a] [] ++ [xff])) [x2a] [xff]);
    [reflexivity | by vm_compute].
Defined.

Lemma sample_with_page_writable :
  Crypto.mFileName (Crypto.this Sample.world_with_page)
    ∉ Crypto.unwritable Sample.world_with_page.
Proof. apply not_elem_of_empty. Qed.

Lemma sample_with_page_written :
  Crypto.writeKeyFile Sample.world_with_page =
    Done tt (Crypto.on_files
               <["db-keyfile" :=
                   Keyfile.layout (Crypto.mWrappedKey Sample.engine) Scenario.page1]>
               Sample.world_with_page).
Proof. by vm_compute. Qed.

(** X20: the round trip [keyfile_roundtrip] on the sample engine with a page
    cached, read back by an engine with stale members. *)
Lemma keyfile_roundtrip_witness :
  ∃ w3, Crypto.readKeyFile Scenario.stored = Done tt w3 ∧
        Crypto.mWrappedKey (Crypto.this w3) = Crypto.mWrappedKey Sample.engine ∧
        Crypto.mFirstPage (Crypto.this w3) = Scenario.page1.
Proof.
  destruct (keyfile_roundtrip Sample.world_with_page Scenario.stored)
    as (w1 & Hw & Hread);
    [reflexivity | reflexivity | reflexivity | exact sample_with_page_writable |].
  rewrite sample_with_page_written in Hw. injection Hw as <-.
  apply Hread; [reflexivity | by vm_compute].
Defined.

Lemma sample_locked : "db-keyfile" ∈ Crypto.unwritable Scenario.locked.
Proof. apply elem_of_singleton. reflexivity. Qed.

Lemma Crypto_existing_database_witness :
  (1 ≠ 0)%Z ∧
  peek Sample.secret (to_uint32 3) = Some Sample.secret ∧
  IDataCrypt.unwrapKey ToyCrypt.cipher (Crypto.mWrappedKey Sample.engine)
    Sample.secret ([], Crypto.rng Scenario.stored) = Done tt ([x07; x08], 7) ∧
  ∃ w', Crypto.Crypto ToyCrypt.cipher "db" Sample.secret 3 1 Scenario.stored
          = Done tt w' ∧
        Crypto.mFileName (Crypto.this w') = "db" +:+ "-keyfile" ∧
        Crypto.mKey (Crypto.this w') = [x07; x08] ∧
        Crypto.mWrappedKey (Crypto.this w') = Crypto.mWrappedKey Sample.engine ∧
        Crypto.mFirstPage (Crypto.this w') = Scenario.page1 ∧
        Crypto.mPageBufferIn (Crypto.this w') = [] ∧
        Crypto.mPageBufferOut (Crypto.this w') = [] ∧
        Crypto.files w' = Crypto.files Scenario.stored.
Proof.
  split; [lia|]. split; [reflexivity|]. split; [reflexivity|].
  apply (Crypto_existing_database ToyCrypt.cipher Scenario.stored "db"
           Sample.secret 3 1 Sample.secret (Crypto.mWrappedKey Sample.engine)
           Scenario.page1 [x07; x08] 7);
    [lia | reflexivity | reflexivity | reflexivity | by vm_compute
    | reflexivity | reflexivity].
Defined.

Lemma Crypto_existing_database_no_keyfile_witness :
  (1 ≠ 0)%Z ∧
  Crypto.files Sample.world !! ("db" +:+ "-keyfile") = None ∧
  ∃ w', Crypto.Crypto ToyCrypt.cipher "db" Sample.secret 3 1 Sample.world
          = Raised (runtime_error "Failed to open keyfile") w' ∧
        Crypto.files w' = Crypto.files Sample.world ∧
        Crypto.rng w' = Crypto.rng Sample.world ∧
        Crypto.mem w' = Crypto.mem Sample.world.
Proof.
  split; [lia|]. split; [reflexivity|].
  apply (Crypto_existing_database_no_keyfile ToyCrypt.cipher Sample.world "db"
           Sample.secret 3 1); [lia | reflexivity].
Defined.

Lemma Crypto_existing_database_wrong_key_witness :
  Sample.new_secret ≠ Sample.secret ∧
  IDataCrypt.wrapKey ToyCrypt.cipher [x07; x08] Sample.secret ([], 0)
    = Done tt (Crypto.mWrappedKey Sample.engine, 0) ∧
  ∃ e w', Crypto.Crypto ToyCrypt.cipher "db" Sample.new_secret 3 1 Scenario.stored
            = Raised e w'.
Proof.
  split; [discriminate|]. split; [reflexivity|].
  apply (Crypto_existing_database_wrong_key ToyCrypt.cipher Scenario.stored "db"
           Sample.new_secret 3 1 Sample.new_secret Sample.secret [x07; x08]
           (Crypto.mWrappedKey Sample.engine) Scenario.page1 0 0);
    [exact ToyCrypt_lawful | lia | reflexivity | reflexivity | reflexivity
    | reflexivity | by vm_compute | reflexivity | discriminate].
Defined.

Lemma encryptPage_first_page_unwritable_witness :
  peek [x48; x49; x4a] 2 = Some [x48; x49] ∧
  IDataCrypt.encrypt ToyCrypt.cipher 1
    (Buffer.write [x48; x49] (Crypto.mPageBufferIn (Crypto.this Scenario.locked)))
    (Crypto.mKey (Crypto.this Scenario.locked))
    (Crypto.mPageBufferOut (Crypto.this Scenario.locked), Crypto.rng Scenario.locked)
    = Done tt (Scenario.page1, 7) ∧
  ∃ w', Crypto.encryptPage ToyCrypt.cipher [x48; x49; x4a] 2 1 Scenario.locked
          = Raised (runtime_error "Failed to open keyfile") w' ∧
        Crypto.mFirstPage (Crypto.this w') = Scenario.page1 ∧
        Crypto.mPageBufferOut (Crypto.this w') = Scenario.page1 ∧
        Crypto.files w' = Crypto.files Scenario.locked.
Proof.
  split; [reflexivity|]. split; [reflexivity|].
  apply (encryptPage_first_page_unwritable ToyCrypt.cipher Scenario.locked
           [x48; x49; x4a] 2 [x48; x49] Scenario.page1 7);
    [reflexivity | reflexivity | exact sample_locked].
Defined.

Lemma encryptPage_other_page_result_witness :
  (5 ≠ 1)%Z ∧
  peek [x48; x49; x4a] 2 = Some [x48; x49] ∧
  Crypto.encryptPage ToyCrypt.cipher [x48; x49; x4a] 2 5 Sample.world =
    Done [x05; x4f; x4e]
      (Crypto.set_rng 7
         (Crypto.on_this
            (λ c, Crypto.set_mPageBufferOut (λ _, [x05; x4f; x4e])
                    (Crypto.set_mPageBufferIn (Buffer.write [x48; x49]) c))
            Sample.world)).
Proof.
  split; [lia|]. split; [reflexivity|].
  apply (encryptPage_other_page_result ToyCrypt.cipher Sample.world
           [x48; x49; x4a] 2 5 [x48; x49] [x05; x4f; x4e] 7);
    [lia | reflexivity | reflexivity].
Defined.

Lemma first_page_survives_reopen_witness :
  ∃ w1 w2,
    Crypto.encryptPage ToyCrypt.cipher [x48; x49; x4a] 2 1 Sample.world
      = Done Scenario.page1 w1 ∧
    Crypto.Crypto ToyCrypt.cipher "db" Sample.secret 3 1 w1 = Done tt w2 ∧
    Crypto.mFirstPage (Crypto.this w2) = Scenario.page1 ∧
    Crypto.mWrappedKey (Crypto.this w2)
      = Crypto.mWrappedKey (Crypto.this Sample.world) ∧
    Crypto.mKey (Crypto.this w2) = [x07; x08].
Proof.
  apply (first_page_survives_reopen ToyCrypt.cipher Sample.world "db"
           [x48; x49; x4a] 2 [x48; x49] Scenario.page1 7 Sample.secret 3
           Sample.secret [x07; x08] 7);
    [reflexivity | reflexivity | reflexivity | exact sample_keyfile_writable
    | reflexivity | reflexivity | reflexivity | reflexivity | reflexivity].
Defined.

Lemma sample_decryptPage_done :
  Crypto.decryptPage ToyCrypt.cipher (Some 16) 2 5 Scenario.with_cipher_block
  = Done tt
      (Crypto.on_mem <[16 := [x48; x49; x4e; x21]]>
         (Crypto.on_this
            (λ c, Crypto.set_mPageBufferOut (λ _, [x48; x49; x07])
                    (Crypto.set_mPageBufferIn (λ _, [x05; x4f; x4e; x00]) c))
            Scenario.with_cipher_block)).
Proof. by vm_compute. Qed.

Lemma decryptPage_in_place_witness :
  ∃ block plain,
    Crypto.mem Scenario.with_cipher_block !! 16 = Some block ∧
    peek [x48; x49; x07] 2 = Some plain ∧
    <[16 := [x48; x49; x4e; x21]]> (Crypto.mem Scenario.with_cipher_block)
      = <[16 := plain ++ drop (length plain) block]>
          (Crypto.mem Scenario.with_cipher_block).
Proof.
  exact (decryptPage_in_place ToyCrypt.cipher Scenario.with_cipher_block 16 2 5 _
           sample_decryptPage_done).
Defined.

Lemma decryptFirstPageCache_cached_page_witness :
  0 < Buffer.size (Crypto.mFirstPage (Crypto.this Sample.world_with_page)) ∧
  Crypto.decryptFirstPageCache ToyCrypt.cipher Sample.world_with_page =
    Done tt
      (Crypto.set_rng 7
         (Crypto.on_this
            (λ c, Crypto.set_mPageBufferOut (λ _, [x48; x49])
                    (Crypto.set_mPageBufferIn
                       (λ _, replicate
                               (N.to_nat
                                  (N.max (Buffer.size
                                            (Crypto.mFirstPage
                                               (Crypto.this Sample.world_with_page)))
                                         512))
                               x00) c)) Sample.world_with_page)).
Proof.
  split; [reflexivity|].
  apply (decryptFirstPageCache_cached_page ToyCrypt.cipher Sample.world_with_page
           [x48; x49] 7); [reflexivity | by vm_compute].
Defined.

Lemma rekey_unwritable_witness :
  peek Sample.new_secret_block (to_uint32 3) = Some Sample.new_secret ∧
  ("db-keyfile" ∈ Crypto.unwritable Scenario.locked) ∧
  ∃ w', Crypto.rekey ToyCrypt.cipher Sample.new_secret_block 3 Scenario.locked
          = Raised (runtime_error "Failed to open keyfile") w' ∧
        Crypto.mWrappedKey (Crypto.this w') = Sample.rewrapped ∧
        Crypto.mKey (Crypto.this w') = Crypto.mKey (Crypto.this Scenario.locked) ∧
        Crypto.files w' = Crypto.files Scenario.locked.
Proof.
  split; [reflexivity|]. split; [exact sample_locked|].
  apply (rekey_unwritable ToyCrypt.cipher Scenario.locked Sample.new_secret_block 3
           Sample.new_secret Sample.rewrapped 7);
    [reflexivity | reflexivity | exact sample_locked].
Defined.

Lemma rekey_survives_reopen_witness :
  ∃ w1 w2,
    Crypto.rekey ToyCrypt.cipher Sample.new_secret_block 3 Sample.world_with_page
      = Done tt w1 ∧
    Crypto.Crypto ToyCrypt.cipher "db" Sample.new_secret_block 3 1 w1 = Done tt w2 ∧
    Crypto.mKey (Crypto.this w2) = Crypto.mKey (Crypto.this Sample.world_with_page) ∧
    Crypto.mFirstPage (Crypto.this w2)
      = Crypto.mFirstPage (Crypto.this Sample.world_with_page).
Proof.
  apply (rekey_survives_reopen ToyCrypt.cipher Sample.world_with_page "db"
           Sample.new_secret_block 3 Sample.new_secret Sample.rewrapped 7);
    [exact ToyCrypt_lawful | reflexivity | reflexivity | reflexivity
    | exact sample_with_page_writable | reflexivity | reflexivity | reflexivity].
Defined.
